(** * stac_harvester: the link rewriter and the destination publishers

    A shallow embedding of [src/stac_harvester/harvester.py] (class
    [Harvester]) and the properties of its link rewriting, its static and
    API publishers, its API reader and its [run] loop. *)

From Stdlib Require Import String Ascii ZArith List Lia DecimalString.
From stdpp Require Import base option list strings gmap fin_maps.

Local Open Scope string_scope.
Local Open Scope list_scope.

(** ** Python string methods used by the harvester *)

Module Str.

(** [s.startswith(prefix)] *)
Definition startswith (s prefix : string) : bool := String.prefix prefix s.

(** [s.replace("", new)]: [new] goes before every character and at the end. *)
Fixpoint replace_empty (new s : string) : string :=
  match s with
  | EmptyString => new
  | String c s' => new +:+ String c (replace_empty new s')
  end.

(** The scan of [s.replace(old, new)] for a non-empty [old]: left to right,
    every occurrence that does not overlap the one before it.  [skip] counts
    the characters of the current occurrence still to be passed over. *)
Fixpoint replace_scan (old new : string) (skip : nat) (s : string) : string :=
  match s with
  | EmptyString => EmptyString
  | String c s' =>
      match skip with
      | S k => replace_scan old new k s'
      | O =>
          if String.prefix old s
          then new +:+ replace_scan old new (String.length old - 1) s'
          else String c (replace_scan old new 0 s')
      end
  end.

(** [s.replace(old, new)] *)
Definition replace (s old new : string) : string :=
  match old with
  | EmptyString => replace_empty new s
  | String _ _ => replace_scan old new 0 s
  end.

(** [str(n)] for a non-negative [int] *)
Definition of_nat (n : nat) : string := NilZero.string_of_uint (Nat.to_uint n).

(** [str(z)] for an [int] *)
Definition of_Z (z : Z) : string := NilZero.string_of_int (Z.to_int z).

(** No occurrence of [old] in [pre +:+ tail] starts within [pre]. *)
Fixpoint free_before (old pre tail : string) : bool :=
  match pre with
  | EmptyString => true
  | String _ pre' =>
      negb (String.prefix old (pre +:+ tail)) && free_before old pre' tail
  end.

(** [old] does not occur in [s]. *)
Definition free_of (old s : string) : bool := free_before old s "".

End Str.

(** ** Exceptions *)

Inductive Exn : Type :=
| AttributeError (name : string)
| KeyError (key : string)
| TypeError (msg : string)
| ValueError (msg : string)
| JSONDecodeError.

Inductive Result (A : Type) : Type :=
| Ok (a : A)
| Raise (e : Exn).
Arguments Ok {A} a.
Arguments Raise {A} e.

#[global] Instance Result_ret : MRet Result := fun A a => Ok a.
#[global] Instance Result_bind : MBind Result := fun A B k r =>
  match r with
  | Ok a => k a
  | Raise e => Raise e
  end.
#[global] Instance Result_fmap : FMap Result := fun A B f r =>
  match r with
  | Ok a => Ok (f a)
  | Raise e => Raise e
  end.

(** ** The catalog library, as far as the harvester uses it

    [pystac] is outside the repository.  The harvester reads a link's [rel]
    and [href], assigns its [target], reads an object's [STAC_OBJECT_TYPE]
    and [links], converts with [to_dict] and [from_dict], and indexes the
    mapping form of a node by key. *)

Inductive STACObjectType : Type := CATALOG | COLLECTION | ITEM.

(** A reference to an in-memory catalog object: its identity, and the self
    href the library reports for it, if it has one. *)
Record ObjRef : Type := { oid : nat; self_href : option string }.

(** What a link points at: a URI string, or another in-memory object. *)
Inductive Target : Type :=
| Href (s : string)
| Obj (o : ObjRef).

(** A link object.  [href_attr] is the href the link was built with. *)
Record Link : Type := { rel : string; href_attr : string; target : Target }.

(** What [link.href] answers once [link.target] has been assigned.
    [pystac] computes the href from the target ([HrefOfTarget]): the string
    itself, or the self href of the target object.  A library that keeps the
    two as separate attributes answers the href the link was built with
    ([HrefAttribute]).  The harvester is modelled over both. *)
Inductive HrefAccess : Type := HrefOfTarget | HrefAttribute.

(** [link.href] *)
Definition href (m : HrefAccess) (l : Link) : Result string :=
  match m with
  | HrefAttribute => Ok (href_attr l)
  | HrefOfTarget =>
      match target l with
      | Href s => Ok s
      | Obj o =>
          match self_href o with
          | Some s => Ok s
          | None => Raise (ValueError "link does not have an HREF set")
          end
      end
  end.

(** [link.target = t] *)
Definition set_target (l : Link) (t : Target) : Link :=
  {| rel := rel l; href_attr := href_attr l; target := t |}.

(** A catalog node over links of type [L]: its [STAC_OBJECT_TYPE], its
    scalar entries by key (["type"], ["id"], ["collection"], ...) and its
    ordered link list. *)
Record STACObject (L : Type) : Type := {
  STAC_OBJECT_TYPE : STACObjectType;
  fields : gmap string string;
  links : list L
}.
Arguments STAC_OBJECT_TYPE {L} _.
Arguments fields {L} _.
Arguments links {L} _.

(** A node in mapping form, as [to_dict] returns it and as the readers hand
    it to the publishers: every link is a pair of a rel and an href. *)
Definition StacDict : Type := STACObject (string * string).

(** A node as a library object, with link objects. *)
Definition StacObject : Type := STACObject Link.

(** [stac_obj.links = new_links] *)
Definition set_links {L L'} (o : STACObject L) (ls : list L') : STACObject L' :=
  {| STAC_OBJECT_TYPE := STAC_OBJECT_TYPE o; fields := fields o; links := ls |}.

(** [stac_obj[key]] *)
Definition getitem (o : StacDict) (key : string) : Result string :=
  match fields o !! key with
  | Some v => Ok v
  | None => Raise (KeyError key)
  end.

(** What a publisher is called with: a library object, as the readers
    yield it, given here by its mapping form; or a plain mapping. *)
Inductive Arg : Type :=
| Object (d : StacDict)
| Mapping (d : StacDict).

(** [stac_obj[key]]: a library object is not subscriptable.  The message
    of the real exception starts with the name of the object's class, which
    is left out here. *)
Definition subscript (stac_obj : Arg) (key : string) : Result string :=
  match stac_obj with
  | Object _ => Raise (TypeError "object is not subscriptable")
  | Mapping d => getitem d key
  end.

(** The body [requests] makes of [json=stac_obj]: a library object is not
    JSON serializable (the class name is left out of the message, as in
    [subscript]). *)
Definition to_json (stac_obj : Arg) : Result StacDict :=
  match stac_obj with
  | Object _ => Raise (TypeError "object is not JSON serializable")
  | Mapping d => Ok d
  end.

(** The link object [from_dict] builds from [{rel, href}]. *)
Definition link_from_dict (d : string * string) : Link :=
  {| rel := d.1; href_attr := d.2; target := Href d.2 |}.

(** [pystac.Collection.from_dict(d)] and [pystac.Item.from_dict(d)] *)
Definition from_dict (d : StacDict) : StacObject :=
  set_links d (link_from_dict <$> links d).

(** [stac_obj.get_self_href()]: the href of the first self link. *)
Definition get_self_href (m : HrefAccess) (o : StacObject) : option string :=
  match List.find (fun l => String.eqb (rel l) "self") (links o) with
  | Some l => match href m l with Ok s => Some s | Raise _ => None end
  | None => None
  end.

(** The destination catalog object: its reference, and the href of its root
    link ([get_root_link().href]). *)
Record Catalog : Type := { cat_ref : ObjRef; root_link_href : string }.

(** ** The harvester object *)

Record IOConf : Type := { TYPE : string; ROOT : string }.
Record Conf : Type := { INPUT : IOConf; OUTPUT : IOConf; LOGGING_LEVEL : string }.

(** The bound methods [__init__] stores in [self.get] and [self.post]. *)
Inductive Reader : Type := get_api_method | get_static_method.
Inductive Publisher : Type := post_api_method | post_static_method.

(** The instance attributes.  [parent] is assigned in the STATIC branch of
    [__init__] and by [get_api]; on an object where neither has run it is
    unset. *)
Record Harvester : Type := {
  conf : Conf;
  input_root : string;
  get : Reader;
  post : Publisher;
  output_catalog : Catalog;
  parent : option ObjRef;
  collection_count : nat;
  item_count : nat
}.

(** [Harvester.__init__], after the configuration file has been read into
    [c]; [cat] is the catalog [pystac.Catalog.from_file] reads at
    [OUTPUT.ROOT].  For every other output type the constructor asks for
    [pystac.Client], an attribute the [pystac] module does not have, and
    raises; [collection_count] and [item_count] are assigned after that. *)
Definition init (c : Conf) (cat : Catalog) : Result Harvester :=
  if String.eqb (TYPE (OUTPUT c)) "STATIC" then
    Ok {| conf := c;
          input_root := ROOT (INPUT c);
          get := if String.eqb (TYPE (INPUT c)) "API"
                 then get_api_method else get_static_method;
          post := if String.eqb (TYPE (OUTPUT c)) "API"
                  then post_api_method else post_static_method;
          output_catalog := cat;
          parent := Some (cat_ref cat);
          collection_count := 0;
          item_count := 0 |}
  else Raise (AttributeError "Client").

Definition set_parent (h : Harvester) (p : ObjRef) : Harvester :=
  {| conf := conf h; input_root := input_root h; get := get h; post := post h;
     output_catalog := output_catalog h; parent := Some p;
     collection_count := collection_count h; item_count := item_count h |}.

Definition incr_collection_count (h : Harvester) : Harvester :=
  {| conf := conf h; input_root := input_root h; get := get h; post := post h;
     output_catalog := output_catalog h; parent := parent h;
     collection_count := collection_count h + 1; item_count := item_count h |}.

Definition incr_item_count (h : Harvester) : Harvester :=
  {| conf := conf h; input_root := input_root h; get := get h; post := post h;
     output_catalog := output_catalog h; parent := parent h;
     collection_count := collection_count h; item_count := item_count h + 1 |}.

(** Attribute values, for lookup by name. *)
Inductive Value : Type :=
| VConf (c : Conf)
| VIOConf (c : IOConf)
| VStr (s : string)
| VInt (n : nat)
| VReader (r : Reader)
| VPublisher (p : Publisher)
| VCatalog (c : Catalog)
| VObj (o : ObjRef)
| VMethod (name : string).

(** The methods of the class. *)
Definition methods : list string :=
  ["__init__"; "update_links"; "get_static"; "post_static"; "get_api";
   "post_api_colletion"; "post_api_item"; "post_api"; "run"].

(** The instance dictionary: the attributes some method assigns. *)
Definition instance_dict (h : Harvester) : gmap string Value :=
  let always : gmap string Value :=
    list_to_map
      [("conf", VConf (conf h));
       ("input_conf", VIOConf (INPUT (conf h)));
       ("output_conf", VIOConf (OUTPUT (conf h)));
       ("log_conf", VStr (LOGGING_LEVEL (conf h)));
       ("input_root", VStr (input_root h));
       ("get", VReader (get h));
       ("post", VPublisher (post h));
       ("output_catalog", VCatalog (output_catalog h));
       ("collection_count", VInt (collection_count h));
       ("item_count", VInt (item_count h))] in
  match parent h with
  | Some p => <["parent" := VObj p]> always
  | None => always
  end.

(** [self.<name>]: the instance dictionary, then the class. *)
Definition getattr (h : Harvester) (name : string) : Result Value :=
  match instance_dict h !! name with
  | Some v => Ok v
  | None =>
      if bool_decide (name ∈ methods) then Ok (VMethod name)
      else Raise (AttributeError name)
  end.

(** [self.parent] *)
Definition get_parent (h : Harvester) : Result ObjRef :=
  match parent h with
  | Some p => Ok p
  | None => Raise (AttributeError "parent")
  end.

(** ** The link rewriter *)

(** [self.output_catalog.get_root_link().href.replace("/catalog.json", "")] *)
Definition root_link (h : Harvester) : string :=
  Str.replace (root_link_href (output_catalog h)) "/catalog.json" "".

(** The body of the first [if link.rel == "self"]. *)
Definition rewrite_self (m : HrefAccess) (h : Harvester) (ty : STACObjectType)
    (link : Link) : Result Link :=
  if String.eqb (rel link) "self" then
    s ← href m link;
    Ok (set_target link
          (Href (Str.replace s (input_root h) (root_link h) +:+
                 match ty with
                 | COLLECTION => "/collection.json"
                 | _ => ".json"
                 end)))
  else Ok link.

(** The chain [if link.rel in ["collection", "parent"] ... elif ... else]
    that follows it. *)
Definition rewrite_rel (m : HrefAccess) (h : Harvester) (link : Link) : Result Link :=
  if bool_decide (rel link ∈ ["collection"; "parent"]) then
    p ← get_parent h; Ok (set_target link (Obj p))
  else if String.eqb (rel link) "root" then
    Ok (set_target link (Obj (cat_ref (output_catalog h))))
  else
    s ← href m link;
    Ok (set_target link (Href (Str.replace s (input_root h) (root_link h)))).

(** The loop of [update_links] over [stac_obj.links], with its accumulator
    [new_links]. *)
Fixpoint update_links_loop (m : HrefAccess) (h : Harvester) (ty : STACObjectType)
    (ls new_links : list Link) : Result (list Link) :=
  match ls with
  | [] => Ok new_links
  | link :: rest =>
      s ← href m link;
      if Str.startswith s (input_root h) then
        link1 ← rewrite_self m h ty link;
        link2 ← rewrite_rel m h link1;
        update_links_loop m h ty rest (new_links ++ [link2])
      else update_links_loop m h ty rest new_links
  end.

(** [Harvester.update_links] *)
Definition update_links (m : HrefAccess) (h : Harvester) (stac_obj : StacObject)
    : Result StacObject :=
  new_links ← update_links_loop m h (STAC_OBJECT_TYPE stac_obj) (links stac_obj) [];
  Ok (set_links stac_obj new_links).

(** ** The destination API and the effects of the program *)

Inductive Method : Type := POST | PUT.

(** A joined URL, kept symbolic: the base and the path joined to it. *)
Record Url : Type := { url_base : string; url_path : string }.

(** [urljoin(base, path)] for a non-empty string [path].  A false base
    gives the path alone; a string base is joined; any other base raises,
    because [urljoin] does not mix string and non-string arguments. *)
Definition urljoin (base : Value) (path : string) : Result Url :=
  match base with
  | VStr s => Ok {| url_base := s; url_path := path |}
  | VInt 0 => Ok {| url_base := ""; url_path := path |}
  | _ => Raise (TypeError "Cannot mix str and non-str arguments")
  end.

(** [requests.post(url, json=stac_obj, verify=True)] and [requests.put]. *)
Record Request : Type := { method : Method; url : Url; json : StacDict }.

(** [json_body] is [None] when the body is not JSON. *)
Record Response : Type := {
  status_code : Z;
  text : string;
  json_body : option (gmap string string)
}.

(** [response.json()] *)
Definition response_json (r : Response) : Result (gmap string string) :=
  match json_body r with
  | Some j => Ok j
  | None => Raise JSONDecodeError
  end.

(** [response_json[key]] *)
Definition json_getitem (j : gmap string string) (key : string) : Result string :=
  match j !! key with
  | Some v => Ok v
  | None => Raise (KeyError key)
  end.

(** The calls of [update_links] and what the program does to the outside,
    in order. *)
Inductive Event : Type :=
| EUpdateLinks (o : nat)
| EAddChild (child : ObjRef)
| EWriteFile (o : ObjRef) (obj : StacObject)
| ERequest (r : Request) (resp : Response)
| EPrint (line : string)
| ESave.

(** [str(end - start)] for a [timedelta] of [us] microseconds. *)
Module Timedelta.

Definition pad (width : nat) (z : Z) : string :=
  let s := Str.of_Z z in
  String.concat "" (List.repeat "0" (width - String.length s)) +:+ s.

Definition str (us : Z) : string :=
  let days := (us / 86400000000)%Z in
  let rest := (us mod 86400000000)%Z in
  let seconds := (rest / 1000000)%Z in
  let microseconds := (rest mod 1000000)%Z in
  let mm := (seconds / 60)%Z in
  let ss := (seconds mod 60)%Z in
  let hh := (mm / 60)%Z in
  let mm := (mm mod 60)%Z in
  let s := Str.of_Z hh +:+ ":" +:+ pad 2 mm +:+ ":" +:+ pad 2 ss in
  let s :=
    if (days =? 0)%Z then s
    else Str.of_Z days +:+ " day" +:+ (if (Z.abs days =? 1)%Z then "" else "s") +:+ ", " +:+ s in
  if (microseconds =? 0)%Z then s else s +:+ "." +:+ pad 6 microseconds.

End Timedelta.

Section Program.

(** The destination server: its state and how it answers a request. *)
Context {Srv : Type}.
Variable http : Request -> Srv -> Response * Srv.

(** How the catalog library answers [link.href]. *)
Variable m : HrefAccess.

(** The harvester object and the world around it. *)
Record State : Type := {
  self : Harvester;
  server : Srv;
  trace : list Event;
  next_oid : nat
}.

(** Computations that read and write the state and may raise. *)
Definition M (A : Type) : Type := State -> Result A * State.

#[global] Instance M_ret : MRet M := fun A a st => (Ok a, st).
#[global] Instance M_bind : MBind M := fun A B k c st =>
  match c st with
  | (Ok a, st') => k a st'
  | (Raise e, st') => (Raise e, st')
  end.

Definition lift {A} (r : Result A) : M A := fun st => (r, st).

Definition get_self : M Harvester := fun st => (Ok (self st), st).

Definition modify_self (f : Harvester -> Harvester) : M unit := fun st =>
  (Ok tt, {| self := f (self st); server := server st; trace := trace st;
             next_oid := next_oid st |}).

Definition emit (e : Event) : M unit := fun st =>
  (Ok tt, {| self := self st; server := server st; trace := trace st ++ [e];
             next_oid := next_oid st |}).

(** A new object identity. *)
Definition fresh : M nat := fun st =>
  (Ok (next_oid st),
   {| self := self st; server := server st; trace := trace st;
      next_oid := next_oid st + 1 |}).

(** One synchronous HTTP exchange. *)
Definition send (r : Request) : M Response := fun st =>
  let '(resp, srv) := http r (server st) in
  (Ok resp, {| self := self st; server := srv; trace := trace st ++ [ERequest r resp];
               next_oid := next_oid st |}).

(** [print(line)] *)
Definition print (line : string) : M unit := emit (EPrint line).

(** [self.update_links(stac_obj)] on the object of identity [o]. *)
Definition call_update_links (o : nat) (stac_obj : StacObject) : M StacObject :=
  emit (EUpdateLinks o);;
  h ← get_self;
  lift (update_links m h stac_obj).

(** ** The static publisher *)

(** [Harvester.post_static].  [stac_obj.to_dict()] is the record itself. *)
Definition post_static (stac_obj : StacDict) : M unit :=
  match STAC_OBJECT_TYPE stac_obj with
  | COLLECTION =>
      o ← fresh;
      stac_obj ← mret (from_dict stac_obj);
      stac_obj ← call_update_links o stac_obj;
      let ref := {| oid := o; self_href := get_self_href m stac_obj |} in
      emit (EAddChild ref);;
      modify_self (fun h => set_parent h ref);;
      modify_self incr_collection_count;;
      emit (EWriteFile ref stac_obj)
  | _ =>
      o ← fresh;
      stac_obj ← mret (from_dict stac_obj);
      stac_obj ← call_update_links o stac_obj;
      let ref := {| oid := o; self_href := get_self_href m stac_obj |} in
      modify_self incr_item_count;;
      emit (EWriteFile ref stac_obj)
  end.

(** ** The API publisher *)

(** [Harvester.post_api_colletion].  The arguments of [requests.post] are
    evaluated before the call, [urljoin] first. *)
Definition post_api_colletion (stac_obj : Arg) : M unit :=
  h ← get_self;
  url ← lift (urljoin (VCatalog (output_catalog h)) "collections");
  body ← lift (to_json stac_obj);
  response ← send {| method := POST; url := url; json := body |};
  if (status_code response =? 409)%Z then
    response_json ← lift (response_json response);
    description ← lift (json_getitem response_json "description");
    id ← lift (subscript stac_obj "id");
    if String.eqb description ("Collection " +:+ id +:+ " already exists") then
      h ← get_self;
      url ← lift (urljoin (VCatalog (output_catalog h)) "collections");
      body ← lift (to_json stac_obj);
      response ← send {| method := PUT; url := url; json := body |};
      if negb (status_code response =? 200)%Z then
        print ("FastAPI Output Collection already exists and Update failed with status code: "
               +:+ Str.of_Z (status_code response) +:+ " and response text: "
               +:+ text response)
      else mret tt
    else mret tt
  else if negb (status_code response =? 200)%Z then
    print ("FastAPI Output failed with status code: "
           +:+ Str.of_Z (status_code response) +:+ " and response text: "
           +:+ text response)
  else mret tt.

(** [Harvester.post_api_item] *)
Definition post_api_item (stac_obj : Arg) : M unit :=
  h ← get_self;
  output_root ← lift (getattr h "output_root");
  collection ← lift (subscript stac_obj "collection");
  url ← lift (urljoin output_root ("collections/" +:+ collection +:+ "/items"));
  body ← lift (to_json stac_obj);
  response ← send {| method := POST; url := url; json := body |};
  if (status_code response =? 409)%Z then
    response_json ← lift (response_json response);
    description ← lift (json_getitem response_json "description");
    id ← lift (subscript stac_obj "id");
    collection ← lift (subscript stac_obj "collection");
    if String.eqb description
         ("Item " +:+ id +:+ " in collection " +:+ collection +:+ " already exists") then
      h ← get_self;
      output_root ← lift (getattr h "output_root");
      collection ← lift (subscript stac_obj "collection");
      id ← lift (subscript stac_obj "id");
      url ← lift (urljoin output_root
                    ("collections/" +:+ collection +:+ "/items/" +:+ id));
      body ← lift (to_json stac_obj);
      response ← send {| method := PUT; url := url; json := body |};
      if negb (status_code response =? 200)%Z then
        type ← lift (subscript stac_obj "type");
        print ("FastAPI Output " +:+ type
               +:+ " already exists and Update failed with status code: "
               +:+ Str.of_Z (status_code response) +:+ " and response text: "
               +:+ text response)
      else mret tt
    else mret tt
  else if negb (status_code response =? 200)%Z then
    print ("FastAPI Output failed with status code: "
           +:+ Str.of_Z (status_code response) +:+ " and response text: "
           +:+ text response)
  else mret tt.

(** [Harvester.post_api] *)
Definition post_api (stac_obj : Arg) : M unit :=
  type ← lift (subscript stac_obj "type");
  if String.eqb type "collection" then post_api_colletion stac_obj
  else post_api_item stac_obj.

(** [self.post(stac_record)]: the record is the library object the reader
    yielded. *)
Definition call_post (stac_record : StacDict) : M unit :=
  h ← get_self;
  match post h with
  | post_api_method => post_api (Object stac_record)
  | post_static_method => post_static stac_record
  end.

(** ** The readers and the harvest loop *)

(** What the source API serves: its collections in server order, each with
    its items in server order. *)
Definition Source : Type := list (StacDict * list StacDict).

(** [for item in collection.get_items(): yield item], each yielded record
    handed to the body of the consuming loop. *)
Fixpoint for_items (body : StacDict -> M unit) (items : list StacDict) : M unit :=
  match items with
  | [] => mret tt
  | item :: rest => body item;; for_items body rest
  end.

(** The generator [Harvester.get_api] driven by a consuming [for] loop: a
    generator runs up to its next [yield] each time the loop asks for a
    record, so the assignment to [self.parent] happens right before the
    body sees the collection, and after the body has seen every record
    before it. *)
Fixpoint get_api (body : StacDict -> M unit) (src : Source) : M unit :=
  match src with
  | [] => mret tt
  | (collection, items) :: rest =>
      modify_self (fun h => set_parent h (cat_ref (output_catalog h)));;
      body collection;;
      for_items body items;;
      get_api body rest
  end.

(** [for stac_record in self.get(): body(stac_record)].  [get_static]
    returns [None], which cannot be iterated. *)
Definition for_get (body : StacDict -> M unit) (src : Source) : M unit :=
  h ← get_self;
  match get h with
  | get_api_method => get_api body src
  | get_static_method => lift (Raise (TypeError "'NoneType' object is not iterable"))
  end.

(** The summary line of [run]. *)
Definition summary (h : Harvester) (elapsed : Z) : string :=
  "Harvested " +:+ Str.of_nat (collection_count h) +:+ " Collections and "
  +:+ Str.of_nat (item_count h) +:+ " Items in " +:+ Timedelta.str elapsed.

(** [Harvester.run]; [start] and [end_] are the two readings of the clock,
    in microseconds. *)
Definition run (src : Source) (start end_ : Z) : M unit :=
  for_get call_post src;;
  emit ESave;;
  h ← get_self;
  print (summary h (end_ - start)).

End Program.

Arguments State : clear implicits.
Arguments M : clear implicits.

(** ** A destination to run the program against *)

(** A destination that answers from a script, whatever is asked; once the
    script is used up it answers 200. *)
Module Scripted.

Definition ok : Response :=
  {| status_code := 200; text := "OK"; json_body := Some ∅ |}.

Definition http (r : Request) (script : list Response) : Response * list Response :=
  match script with
  | resp :: rest => (resp, rest)
  | [] => (ok, [])
  end.

End Scripted.

(** ** The rewriter and the static harvest in closed form *)

(** Whether [update_links] keeps a link of the given href. *)
Definition kept (input_root : string) (d : string * string) : bool :=
  Str.startswith d.2 input_root.

(** The target a kept link of rel [r] and href [s] ends with, for a node of
    type [ty], with [p] the current parent. *)
Definition rewritten_target (m : HrefAccess) (h : Harvester) (p : ObjRef)
    (ty : STACObjectType) (r s : string) : Target :=
  if bool_decide (r ∈ ["collection"; "parent"]) then Obj p
  else if String.eqb r "root" then Obj (cat_ref (output_catalog h))
  else if String.eqb r "self" then
    match m with
    | HrefAttribute => Href (Str.replace s (input_root h) (root_link h))
    | HrefOfTarget =>
        Href (Str.replace
                (Str.replace s (input_root h) (root_link h) +:+
                 match ty with COLLECTION => "/collection.json" | _ => ".json" end)
                (input_root h) (root_link h))
    end
  else Href (Str.replace s (input_root h) (root_link h)).

Definition rewritten_link (m : HrefAccess) (h : Harvester) (p : ObjRef)
    (ty : STACObjectType) (d : string * string) : Link :=
  {| rel := d.1; href_attr := d.2; target := rewritten_target m h p ty d.1 d.2 |}.

(** The object [update_links] returns for [from_dict d]. *)
Definition rewritten (m : HrefAccess) (h : Harvester) (p : ObjRef) (d : StacDict)
    : StacObject :=
  set_links d
    (rewritten_link m h p (STAC_OBJECT_TYPE d) <$> List.filter (kept (input_root h)) (links d)).

(** The reference [post_static] holds to the object it publishes for [d]
    when the next free identity is [n]. *)
Definition published_ref (m : HrefAccess) (h : Harvester) (p : ObjRef) (n : nat)
    (d : StacDict) : ObjRef :=
  {| oid := n; self_href := get_self_href m (rewritten m h p d) |}.

(** What [post_static] does to the outside for one record. *)
Definition static_events (m : HrefAccess) (h : Harvester) (p : ObjRef) (n : nat)
    (d : StacDict) : list Event :=
  match STAC_OBJECT_TYPE d with
  | COLLECTION =>
      [EUpdateLinks n; EAddChild (published_ref m h p n d);
       EWriteFile (published_ref m h p n d) (rewritten m h p d)]
  | _ =>
      [EUpdateLinks n; EWriteFile (published_ref m h p n d) (rewritten m h p d)]
  end.

(** The current parent after [post_static] of one record. *)
Definition static_parent (m : HrefAccess) (h : Harvester) (p : ObjRef) (n : nat)
    (d : StacDict) : ObjRef :=
  match STAC_OBJECT_TYPE d with
  | COLLECTION => published_ref m h p n d
  | _ => p
  end.

Fixpoint static_items_events (m : HrefAccess) (h : Harvester) (p : ObjRef) (n : nat)
    (items : list StacDict) : list Event :=
  match items with
  | [] => []
  | d :: rest =>
      static_events m h p n d ++
      static_items_events m h (static_parent m h p n d) (S n) rest
  end.

Fixpoint static_items_parent (m : HrefAccess) (h : Harvester) (p : ObjRef) (n : nat)
    (items : list StacDict) : ObjRef :=
  match items with
  | [] => p
  | d :: rest => static_items_parent m h (static_parent m h p n d) (S n) rest
  end.

(** The records of a source in the order [get_api] yields them. *)
Definition records (src : Source) : list StacDict :=
  flat_map (fun ci => ci.1 :: ci.2) src.

(** What a harvest into a static destination does to the outside: the
    parent is the destination root for each collection the reader yields. *)
Fixpoint static_harvest_events (m : HrefAccess) (h : Harvester) (n : nat)
    (src : Source) : list Event :=
  match src with
  | [] => []
  | ci :: rest =>
      static_items_events m h (cat_ref (output_catalog h)) n (ci.1 :: ci.2) ++
      static_harvest_events m h (n + S (length ci.2)) rest
  end.

Definition is_collection {L} (o : STACObject L) : bool :=
  match STAC_OBJECT_TYPE o with COLLECTION => true | _ => false end.

(** The objects written to files in a trace, in order. *)
Definition written (tr : list Event) : list (ObjRef * StacObject) :=
  omap (fun e => match e with EWriteFile r o => Some (r, o) | _ => None end) tr.

(** The lines printed in a trace, in order. *)
Definition printed (tr : list Event) : list string :=
  omap (fun e => match e with EPrint line => Some line | _ => None end) tr.

(** The requests sent in a trace, in order. *)
Definition requests (tr : list Event) : list Request :=
  omap (fun e => match e with ERequest r _ => Some r | _ => None end) tr.

(** One mark for every [output_catalog.save()] in a trace. *)
Definition saves (tr : list Event) : list unit :=
  omap (fun e => match e with ESave => Some tt | _ => None end) tr.

(** The identities [update_links] was called on in a trace, in order. *)
Definition rewrites (tr : list Event) : list nat :=
  omap (fun e => match e with EUpdateLinks o => Some o | _ => None end) tr.

(** ** Relations between states *)

(** Two harvester objects that differ at most in the current parent and
    the counters. *)
Definition same_config (h h' : Harvester) : Prop :=
  input_root h' = input_root h /\ get h' = get h /\ post h' = post h /\
  output_catalog h' = output_catalog h.

(** [st'] is [st] after the events [evs], [k] new object identities, [cs]
    more collections and [its] more items counted. *)
Definition harvested {Srv : Type} (st st' : State Srv) (evs : list Event)
    (k cs its : nat) : Prop :=
  same_config (self st) (self st') /\
  trace st' = trace st ++ evs /\
  next_oid st' = next_oid st + k /\
  collection_count (self st') = collection_count (self st) + cs /\
  item_count (self st') = item_count (self st) + its.

(** [st'] is [st] but for the current parent, the server, and requests,
    printed lines and the final save added to the trace: nothing was
    rewritten, written to a file or counted. *)
Definition unrewritten {Srv : Type} (st st' : State Srv) : Prop :=
  same_config (self st) (self st') /\
  collection_count (self st') = collection_count (self st) /\
  item_count (self st') = item_count (self st) /\
  rewrites (trace st') = rewrites (trace st) /\
  written (trace st') = written (trace st).

(** A computation that, run by a harvester whose publisher is [post_api],
    leaves the state [unrewritten], whether it returns or raises. *)
Definition api_preserves {Srv A : Type} (c : M Srv A) : Prop :=
  forall st : State Srv,
    post (self st) = post_api_method -> unrewritten st (c st).2.


(** Whether [update_links] keeps the link and reads [self.parent] for it. *)
Definition reads_parent (input_root : string) (d : string * string) : bool :=
  kept input_root d && bool_decide (d.1 ∈ ["collection"; "parent"]).

(** Whether [update_links] keeps a "self" link of the record, so that the
    object [write_file] is given has a self href to be written at. *)
Definition keeps_self (input_root : string) (d : StacDict) : bool :=
  existsb (fun l => kept input_root l && String.eqb l.1 "self") (links d).

(** The number of records [post_static] counts as collections. *)
Definition count_collections (ds : list StacDict) : nat :=
  length (List.filter is_collection ds).

(** The number of records [post_static] counts as items. *)
Definition count_items (ds : list StacDict) : nat :=
  length (List.filter (fun d => negb (is_collection d)) ds).

(** ** Concrete harvests, for evaluation *)

Module Example.

(** A static destination rooted at https://dst/catalog.json, harvested from
    the API at https://src. *)
Definition catalog : Catalog :=
  {| cat_ref := {| oid := 0; self_href := Some "https://dst/catalog.json" |};
     root_link_href := "https://dst/catalog.json" |}.

Definition static_conf : Conf :=
  {| INPUT := {| TYPE := "API"; ROOT := "https://src" |};
     OUTPUT := {| TYPE := "STATIC"; ROOT := "https://dst/catalog.json" |};
     LOGGING_LEVEL := "INFO" |}.

(** The harvester [__init__] builds from [static_conf]. *)
Definition to_static : Harvester :=
  {| conf := static_conf;
     input_root := "https://src";
     get := get_api_method;
     post := post_static_method;
     output_catalog := catalog;
     parent := Some (cat_ref catalog);
     collection_count := 0;
     item_count := 0 |}.

(** The same source harvested into the API at https://dst. *)
Definition api_conf : Conf :=
  {| INPUT := {| TYPE := "API"; ROOT := "https://src" |};
     OUTPUT := {| TYPE := "API"; ROOT := "https://dst" |};
     LOGGING_LEVEL := "INFO" |}.

(** A harvester with the attributes [__init__] assigns for [api_conf]
    before and after the line that opens the destination: its publisher is
    [post_api] and no parent is set. *)
Definition to_api : Harvester :=
  {| conf := api_conf;
     input_root := "https://src";
     get := get_api_method;
     post := post_api_method;
     output_catalog := catalog;
     parent := None;
     collection_count := 0;
     item_count := 0 |}.

(** Collection A, with a link outside the source and a root link outside
    the source. *)
Definition A : StacDict :=
  {| STAC_OBJECT_TYPE := COLLECTION;
     fields := {[ "type" := "Collection"; "id" := "A" ]};
     links := [("self", "https://src/A");
               ("root", "https://src/");
               ("parent", "https://src/");
               ("license", "https://elsewhere/licence.html")] |}.

(** An item of A. *)
Definition A1 : StacDict :=
  {| STAC_OBJECT_TYPE := ITEM;
     fields := {[ "type" := "Feature"; "id" := "A1"; "collection" := "A" ]};
     links := [("self", "https://src/A/A1");
               ("collection", "https://src/A");
               ("parent", "https://src/A");
               ("root", "https://src/")] |}.

(** A node whose root link lies outside the source root. *)
Definition foreign_root : StacDict :=
  {| STAC_OBJECT_TYPE := COLLECTION;
     fields := {[ "type" := "Collection"; "id" := "F" ]};
     links := [("root", "https://elsewhere/catalog.json")] |}.

(** A static destination whose root href has the source root as a prefix. *)
Definition sibling_catalog : Catalog :=
  {| cat_ref := {| oid := 0;
                   self_href := Some "https://example.org/stac-static/catalog.json" |};
     root_link_href := "https://example.org/stac-static/catalog.json" |}.

Definition sibling_conf : Conf :=
  {| INPUT := {| TYPE := "API"; ROOT := "https://example.org/stac" |};
     OUTPUT := {| TYPE := "STATIC"; ROOT := "https://example.org/stac-static/catalog.json" |};
     LOGGING_LEVEL := "INFO" |}.

Definition to_sibling : Harvester :=
  {| conf := sibling_conf;
     input_root := "https://example.org/stac";
     get := get_api_method;
     post := post_static_method;
     output_catalog := sibling_catalog;
     parent := Some (cat_ref sibling_catalog);
     collection_count := 0;
     item_count := 0 |}.

Definition sibling_A : StacDict :=
  {| STAC_OBJECT_TYPE := COLLECTION;
     fields := {[ "type" := "Collection"; "id" := "A" ]};
     links := [("self", "https://example.org/stac/collections/A")] |}.

(** Records as the API publisher dispatches on them. *)
Definition B (title : string) : StacDict :=
  {| STAC_OBJECT_TYPE := COLLECTION;
     fields := {[ "type" := "collection"; "id" := "B"; "title" := title ]};
     links := [("self", "https://src/collections/B")] |}.

Definition B1 : StacDict :=
  {| STAC_OBJECT_TYPE := ITEM;
     fields := {[ "type" := "Feature"; "id" := "B1"; "collection" := "B" ]};
     links := [("self", "https://src/collections/B/items/B1")] |}.

Definition start {Srv : Type} (h : Harvester) (s : Srv) : State Srv :=
  {| self := h; server := s; trace := []; next_oid := 1 |}.

(** A collection with a licence link inside the source root. *)
Definition C : StacDict :=
  {| STAC_OBJECT_TYPE := COLLECTION;
     fields := {[ "type" := "Collection"; "id" := "C" ]};
     links := [("self", "https://src/C");
               ("license", "https://src/C/licence.html");
               ("root", "https://src/")] |}.

(** A record with no "type" entry. *)
Definition untyped : StacDict :=
  {| STAC_OBJECT_TYPE := ITEM; fields := {[ "id" := "U" ]}; links := [] |}.

(** A destination whose root href names no catalog file, and a harvester
    over it. *)
Definition bare_catalog : Catalog :=
  {| cat_ref := {| oid := 0; self_href := Some "https://dst" |};
     root_link_href := "https://dst" |}.

Definition to_bare : Harvester :=
  {| conf := static_conf;
     input_root := "https://src";
     get := get_api_method;
     post := post_static_method;
     output_catalog := bare_catalog;
     parent := Some (cat_ref bare_catalog);
     collection_count := 0;
     item_count := 0 |}.

(** A harvest from a static source, and the harvester [__init__] builds
    for it. *)
Definition from_static_conf : Conf :=
  {| INPUT := {| TYPE := "STATIC"; ROOT := "https://src/catalog.json" |};
     OUTPUT := {| TYPE := "STATIC"; ROOT := "https://dst/catalog.json" |};
     LOGGING_LEVEL := "INFO" |}.

Definition from_static : Harvester :=
  {| conf := from_static_conf;
     input_root := "https://src/catalog.json";
     get := get_static_method;
     post := post_static_method;
     output_catalog := catalog;
     parent := Some (cat_ref catalog);
     collection_count := 0;
     item_count := 0 |}.

(** The static harvest before its first record, and the API harvest before
    its first record against a destination that answers from [script]. *)
Definition static_start : State (list Response) := start to_static [].

Definition api_start (script : list Response) : State (list Response) :=
  start to_api script.

End Example.

(** * Properties *)

(** ** The link rewriter *)

Section Rewriter.

Variable m : HrefAccess.
Variable h : Harvester.

Lemma href_link_from_dict (d : string * string) : href m (link_from_dict d) = Ok d.2.
Proof. destruct m; reflexivity. Qed.

Lemma rewrite_link_from_dict (p : ObjRef) (ty : STACObjectType) (d : string * string) :
  parent h = Some p ->
  (rewrite_self m h ty (link_from_dict d) ≫= rewrite_rel m h)
  = Ok (rewritten_link m h p ty d).
Proof.
  intros Hp. destruct d as [r s].
  unfold rewrite_self, rewritten_link, rewritten_target. cbn [rel link_from_dict fst snd].
  destruct (String.eqb_spec r "self") as [-> | Hself].
  - destruct m; reflexivity.
  - cbn. unfold rewrite_rel, get_parent. cbn [rel link_from_dict fst snd].
    case_bool_decide; [rewrite Hp; reflexivity |].
    destruct (String.eqb r "root"); [reflexivity |].
    rewrite href_link_from_dict. reflexivity.
Qed.

Lemma update_links_loop_from_dict (p : ObjRef) (ty : STACObjectType)
    (ds : list (string * string)) (acc : list Link) :
  parent h = Some p ->
  update_links_loop m h ty (link_from_dict <$> ds) acc
  = Ok (acc ++ (rewritten_link m h p ty <$> List.filter (kept (input_root h)) ds)).
Proof.
  intros Hp. revert acc.
  induction ds as [| d ds IH]; intros acc; cbn [fmap list_fmap update_links_loop List.filter].
  - by rewrite app_nil_r.
  - rewrite href_link_from_dict. cbn [mbind Result_bind]. unfold kept at 1.
    destruct (Str.startswith d.2 (input_root h)); [| apply IH].
    pose proof (rewrite_link_from_dict p ty d Hp) as Hd.
    destruct (rewrite_self m h ty (link_from_dict d)) as [l1 |]; [| discriminate].
    cbn [mbind Result_bind] in *. rewrite Hd. cbn [mbind Result_bind].
    rewrite IH. cbn [fmap list_fmap]. by rewrite <- app_assoc.
Qed.

(** On the object built from a record, [update_links] returns, and returns
    the closed form. *)
Lemma update_links_from_dict (p : ObjRef) (d : StacDict) :
  parent h = Some p ->
  update_links m h (from_dict d) = Ok (rewritten m h p d).
Proof.
  intros Hp. unfold update_links, from_dict.
  cbn [links STAC_OBJECT_TYPE set_links].
  rewrite (update_links_loop_from_dict p _ _ [] Hp). reflexivity.
Qed.

End Rewriter.

Section RewriterClaims.

Variable m : HrefAccess.
Variable h : Harvester.

(** C1 (as amended): for every node and every link in it with relation
    "root" whose href begins with the source root, [update_links] keeps the
    link and sets its target to the destination catalog root; every "root"
    link of the rewritten node targets the destination catalog root; and no
    link of the rewritten node, of relation "root" or any other, was built
    with an href outside the source root. *)
Theorem root_link_targets_destination_root (p : ObjRef) (d : StacDict) :
  parent h = Some p ->
  exists o' : StacObject,
    update_links m h (from_dict d) = Ok o' /\
    (forall l : string * string,
        l ∈ links d -> l.1 = "root" -> Str.startswith l.2 (input_root h) = true ->
        set_target (link_from_dict l) (Obj (cat_ref (output_catalog h))) ∈ links o') /\
    (forall l' : Link,
        l' ∈ links o' -> rel l' = "root" ->
        target l' = Obj (cat_ref (output_catalog h))) /\
    (forall l' : Link,
        l' ∈ links o' -> Str.startswith (href_attr l') (input_root h) = true).
Proof.
  intros Hp. exists (rewritten m h p d).
  split; [by apply update_links_from_dict |].
  unfold rewritten. cbn [links set_links]. split; [| split].
  - intros [r s] Hin Hrel Hpre. cbn in Hrel, Hpre. subst r.
    apply list_elem_of_fmap. exists ("root", s). split; [reflexivity |].
    apply list_elem_of_In, filter_In. split; [by apply list_elem_of_In | exact Hpre].
  - intros l' Hin Hrel.
    apply list_elem_of_fmap in Hin as ([r s] & -> & _).
    cbn in Hrel. subst r. reflexivity.
  - intros l' Hin.
    apply list_elem_of_fmap in Hin as ([r s] & -> & Hin).
    apply list_elem_of_In, filter_In in Hin as [_ Hpre]. exact Hpre.
Qed.

(** C3: on the object built from any record, [update_links] returns an
    object whose links are, in order, exactly the links whose href starts
    with the source root, each one the same link with a new target. *)
Theorem links_kept_iff_source_prefix (p : ObjRef) (d : StacDict) :
  parent h = Some p ->
  exists o' : StacObject,
    update_links m h (from_dict d) = Ok o' /\
    Forall2 (fun l' l => exists t, l' = set_target l t)
      (links o')
      (List.filter (fun l => Str.startswith (href_attr l) (input_root h))
         (links (from_dict d))).
Proof.
  intros Hp. exists (rewritten m h p d).
  split; [by apply update_links_from_dict |].
  unfold rewritten, from_dict. cbn [links set_links].
  induction (links d) as [| l ls IH]; cbn [fmap list_fmap List.filter]; [constructor |].
  unfold kept at 1. cbn [href_attr link_from_dict].
  destruct (Str.startswith l.2 (input_root h)); [| exact IH].
  cbn [fmap list_fmap]. constructor; [| exact IH].
  by exists (rewritten_target m h p (STAC_OBJECT_TYPE d) l.1 l.2).
Qed.

End RewriterClaims.

(** C1 (as stated) fails: a "root" link whose href lies outside the source
    root is not retargeted, it is dropped with the other foreign links. *)
Lemma root_link_outside_source_root_dropped :
  ("root", "https://elsewhere/catalog.json") ∈ links Example.foreign_root /\
  update_links HrefOfTarget Example.to_static (from_dict Example.foreign_root)
  = Ok (set_links Example.foreign_root []) /\
  update_links HrefAttribute Example.to_static (from_dict Example.foreign_root)
  = Ok (set_links Example.foreign_root []).
Proof. split; [apply list_elem_of_here | split; reflexivity]. Qed.

Lemma root_link_targets_destination_root_witness :
  exists o' : StacObject,
    update_links HrefOfTarget Example.to_static (from_dict Example.A) = Ok o' /\
    (forall l : string * string,
        l ∈ links Example.A -> l.1 = "root" ->
        Str.startswith l.2 (input_root Example.to_static) = true ->
        set_target (link_from_dict l) (Obj (cat_ref (output_catalog Example.to_static)))
        ∈ links o') /\
    (forall l' : Link,
        l' ∈ links o' -> rel l' = "root" ->
        target l' = Obj (cat_ref (output_catalog Example.to_static))) /\
    (forall l' : Link,
        l' ∈ links o' ->
        Str.startswith (href_attr l') (input_root Example.to_static) = true).
Proof.
  apply (root_link_targets_destination_root HrefOfTarget Example.to_static
           (cat_ref Example.catalog) Example.A).
  reflexivity.
Defined.

Lemma links_kept_iff_source_prefix_witness :
  exists o' : StacObject,
    update_links HrefOfTarget Example.to_static (from_dict Example.A) = Ok o' /\
    Forall2 (fun l' l => exists t, l' = set_target l t)
      (links o')
      (List.filter (fun l => Str.startswith (href_attr l) (input_root Example.to_static))
         (links (from_dict Example.A))).
Proof.
  apply (links_kept_iff_source_prefix HrefOfTarget Example.to_static
           (cat_ref Example.catalog) Example.A).
  reflexivity.
Defined.

(** C2 fails on the code: the value the "self" branch assigns is assigned
    over by the final [else] of the chain that follows it, which replaces
    the source root in whatever [link.href] answers by then.  With a
    destination root that has the source root as a prefix, the self link of
    a Collection ends with the source root replaced twice when the href is
    computed from the target, and without the collection suffix when it is
    not; in neither case with
    https://example.org/stac-static/collections/A/collection.json. *)
Theorem self_link_target_assigned_twice :
  root_link Example.to_sibling = "https://example.org/stac-static" /\
  links <$> update_links HrefOfTarget Example.to_sibling (from_dict Example.sibling_A)
  = Ok [ {| rel := "self"; href_attr := "https://example.org/stac/collections/A";
            target := Href "https://example.org/stac-static-static/collections/A/collection.json" |} ] /\
  links <$> update_links HrefAttribute Example.to_sibling (from_dict Example.sibling_A)
  = Ok [ {| rel := "self"; href_attr := "https://example.org/stac/collections/A";
            target := Href "https://example.org/stac-static/collections/A" |} ].
Proof. repeat split; reflexivity. Qed.

(** Unfolds the monad and its primitives in a computation applied to a
    state. *)
Ltac run_m :=
  unfold mbind, M_bind, mret, M_ret, fresh, print, emit, get_self, lift, modify_self, send;
  cbn [self server trace next_oid fst snd].

(** ** The static publisher and the harvest into a static destination *)

Section StaticHarvest.

Context {Srv : Type}.
Variable http : Request -> Srv -> Response * Srv.
Variable m : HrefAccess.

Lemma same_config_refl (h : Harvester) : same_config h h.
Proof. by repeat split. Qed.

Lemma same_config_trans (h1 h2 h3 : Harvester) :
  same_config h1 h2 -> same_config h2 h3 -> same_config h1 h3.
Proof.
  intros (? & ? & ? & ?) (? & ? & ? & ?). repeat split; congruence.
Qed.

Lemma rewritten_same_config (h h' : Harvester) (p : ObjRef) (d : StacDict) :
  same_config h h' -> rewritten m h' p d = rewritten m h p d.
Proof.
  intros (Hi & _ & _ & Ho).
  unfold rewritten, rewritten_link, rewritten_target, root_link.
  by rewrite Hi, Ho.
Qed.

Lemma static_events_same_config (h h' : Harvester) (p : ObjRef) (n : nat) (d : StacDict) :
  same_config h h' -> static_events m h' p n d = static_events m h p n d.
Proof.
  intros Hc. unfold static_events, published_ref.
  by rewrite (rewritten_same_config h h' p d Hc).
Qed.

Lemma static_parent_same_config (h h' : Harvester) (p : ObjRef) (n : nat) (d : StacDict) :
  same_config h h' -> static_parent m h' p n d = static_parent m h p n d.
Proof.
  intros Hc. unfold static_parent, published_ref.
  by rewrite (rewritten_same_config h h' p d Hc).
Qed.

Lemma static_items_events_same_config (h h' : Harvester) (items : list StacDict) :
  same_config h h' ->
  forall (p : ObjRef) (n : nat),
    static_items_events m h' p n items = static_items_events m h p n items.
Proof.
  intros Hc. induction items as [| d rest IH]; intros p n;
    cbn [static_items_events]; [done |].
  by rewrite (static_events_same_config h h' p n d Hc),
             (static_parent_same_config h h' p n d Hc), IH.
Qed.

Lemma static_items_parent_same_config (h h' : Harvester) (items : list StacDict) :
  same_config h h' ->
  forall (p : ObjRef) (n : nat),
    static_items_parent m h' p n items = static_items_parent m h p n items.
Proof.
  intros Hc. induction items as [| d rest IH]; intros p n;
    cbn [static_items_parent]; [done |].
  by rewrite (static_parent_same_config h h' p n d Hc), IH.
Qed.

Lemma static_harvest_events_same_config (h h' : Harvester) (src : Source) :
  same_config h h' ->
  forall n : nat, static_harvest_events m h' n src = static_harvest_events m h n src.
Proof.
  intros Hc. induction src as [| ci rest IH]; intros n; cbn [static_harvest_events]; [done |].
  rewrite (static_items_events_same_config h h' _ Hc), IH.
  destruct Hc as (_ & _ & _ & ->). reflexivity.
Qed.

(** [post_static] on one record: it returns, and changes the state as the
    closed form says. *)
Lemma post_static_spec (d : StacDict) (st : State Srv) (p : ObjRef) :
  parent (self st) = Some p ->
  post_static m d st =
  (Ok tt,
   {| self := if is_collection d
              then incr_collection_count
                     (set_parent (self st) (published_ref m (self st) p (next_oid st) d))
              else incr_item_count (self st);
      server := server st;
      trace := trace st ++ static_events m (self st) p (next_oid st) d;
      next_oid := next_oid st + 1 |}).
Proof.
  intros Hp.
  unfold post_static, static_events, is_collection, call_update_links.
  destruct (STAC_OBJECT_TYPE d); run_m;
    rewrite (update_links_from_dict m (self st) p d Hp); run_m;
    rewrite <- ?app_assoc; reflexivity.
Qed.

Lemma bind_ok {A B} (c : M Srv A) (k : A -> M Srv B) (st st1 : State Srv) (a : A) :
  c st = (Ok a, st1) -> (c ≫= k) st = k a st1.
Proof. intros H. unfold mbind, M_bind. by rewrite H. Qed.

Lemma harvested_refl (st : State Srv) : harvested st st [] 0 0 0.
Proof.
  unfold harvested. rewrite app_nil_r, !Nat.add_0_r.
  repeat split; reflexivity.
Qed.

Lemma harvested_trans (st1 st2 st3 : State Srv) (e1 e2 : list Event)
    (k1 k2 c1 c2 i1 i2 : nat) :
  harvested st1 st2 e1 k1 c1 i1 -> harvested st2 st3 e2 k2 c2 i2 ->
  harvested st1 st3 (e1 ++ e2) (k1 + k2) (c1 + c2) (i1 + i2).
Proof.
  intros (Hc1 & Ht1 & Hn1 & Hcc1 & Hic1) (Hc2 & Ht2 & Hn2 & Hcc2 & Hic2).
  unfold harvested. split; [by eapply same_config_trans |].
  rewrite Ht2, Ht1, Hn2, Hn1, Hcc2, Hcc1, Hic2, Hic1, <- app_assoc.
  repeat split; lia.
Qed.

(** [self.post] on one record when it is [post_static]. *)
Lemma call_post_static (d : StacDict) (st : State Srv) (p : ObjRef) :
  post (self st) = post_static_method ->
  parent (self st) = Some p ->
  exists st' : State Srv,
    call_post http m d st = (Ok tt, st') /\
    harvested st st' (static_events m (self st) p (next_oid st) d) 1
      (if is_collection d then 1 else 0) (if is_collection d then 0 else 1) /\
    parent (self st') = Some (static_parent m (self st) p (next_oid st) d).
Proof.
  intros Hpost Hp. eexists. split.
  - unfold call_post. run_m. rewrite Hpost. by apply post_static_spec.
  - unfold harvested, same_config, static_parent, is_collection.
    cbn [self server trace next_oid].
    destruct (STAC_OBJECT_TYPE d); cbn; repeat split; try done; lia.
Qed.

(** The inner loop over the items of a collection. *)
Lemma for_items_static (items : list StacDict) :
  forall (st : State Srv) (p : ObjRef),
    post (self st) = post_static_method ->
    parent (self st) = Some p ->
    exists st' : State Srv,
      for_items (call_post http m) items st = (Ok tt, st') /\
      harvested st st' (static_items_events m (self st) p (next_oid st) items)
        (length items) (count_collections items) (count_items items) /\
      parent (self st') = Some (static_items_parent m (self st) p (next_oid st) items).
Proof.
  induction items as [| d rest IH]; intros st p Hpost Hp.
  - exists st. cbn. split; [reflexivity |]. split; [apply harvested_refl | exact Hp].
  - destruct (call_post_static d st p Hpost Hp) as (st1 & Hrun1 & Hh1 & Hp1).
    assert (Hc1 : same_config (self st) (self st1)) by apply Hh1.
    assert (Hpost1 : post (self st1) = post_static_method).
    { destruct Hc1 as (_ & _ & -> & _). exact Hpost. }
    destruct (IH st1 _ Hpost1 Hp1) as (st2 & Hrun2 & Hh2 & Hp2).
    assert (Hn1 : next_oid st1 = S (next_oid st)).
    { destruct Hh1 as (_ & _ & -> & _). lia. }
    rewrite Hn1 in Hh2, Hp2.
    rewrite (static_items_events_same_config _ _ rest Hc1) in Hh2.
    rewrite (static_items_parent_same_config _ _ rest Hc1) in Hp2.
    exists st2. split; [| split].
    + cbn [for_items]. rewrite (bind_ok _ _ _ _ _ Hrun1). exact Hrun2.
    + cbn [static_items_events].
      pose proof (harvested_trans _ _ _ _ _ _ _ _ _ _ _ Hh1 Hh2) as Hh.
      unfold count_collections, count_items. cbn [length List.filter].
      destruct (is_collection d); cbn [negb length] in *; exact Hh.
    + exact Hp2.
Qed.

(** The loop of [run] over [get_api] when [self.post] is [post_static]. *)
Lemma get_api_static (src : Source) :
  forall st : State Srv,
    post (self st) = post_static_method ->
    exists st' : State Srv,
      get_api (call_post http m) src st = (Ok tt, st') /\
      harvested st st' (static_harvest_events m (self st) (next_oid st) src)
        (length (records src)) (count_collections (records src))
        (count_items (records src)).
Proof.
  induction src as [| [c items] rest IH]; intros st Hpost.
  - exists st. split; [reflexivity | apply harvested_refl].
  - set (st0 := {| self := set_parent (self st) (cat_ref (output_catalog (self st)));
                   server := server st; trace := trace st; next_oid := next_oid st |}).
    assert (Hh0 : harvested st st0 [] 0 0 0).
    { unfold harvested, same_config, st0. cbn.
      rewrite app_nil_r, !Nat.add_0_r. repeat split; reflexivity. }
    destruct (for_items_static (c :: items) st0 (cat_ref (output_catalog (self st)))
                Hpost eq_refl) as (st1 & Hrun1 & Hh1 & _).
    assert (Hc1 : same_config (self st) (self st1)) by apply Hh1.
    assert (Hpost1 : post (self st1) = post_static_method).
    { destruct Hc1 as (_ & _ & -> & _). exact Hpost. }
    destruct (IH st1 Hpost1) as (st2 & Hrun2 & Hh2).
    assert (Hn1 : next_oid st1 = next_oid st + S (length items)).
    { destruct Hh1 as (_ & _ & -> & _). reflexivity. }
    rewrite Hn1, (static_harvest_events_same_config _ _ rest Hc1) in Hh2.
    exists st2. split.
    + cbn [get_api]. unfold mbind at 1, M_bind at 1, modify_self at 1.
      fold st0. cbn [for_items] in Hrun1.
      unfold mbind at 1 2, M_bind at 1 2.
      unfold mbind at 1, M_bind at 1 in Hrun1.
      destruct (call_post http m c st0) as [[[] | e] stc]; [| discriminate].
      rewrite Hrun1. exact Hrun2.
    + assert (Hc0 : same_config (self st) (self st0)) by apply Hh0.
      rewrite (static_items_events_same_config _ _ (c :: items) Hc0) in Hh1.
      pose proof (harvested_trans _ _ _ _ _ _ _ _ _ _ _
                    (harvested_trans _ _ _ _ _ _ _ _ _ _ _ Hh0 Hh1) Hh2) as Hh.
      cbn [app Nat.add] in Hh.
      cbn [static_harvest_events records flat_map fst snd].
      fold (records rest).
      replace (count_collections ((c :: items) ++ records rest))
        with (count_collections (c :: items) + count_collections (records rest))
        by (unfold count_collections; by rewrite List.filter_app, length_app).
      replace (count_items ((c :: items) ++ records rest))
        with (count_items (c :: items) + count_items (records rest))
        by (unfold count_items; by rewrite List.filter_app, length_app).
      rewrite length_app.
      exact Hh.
Qed.

(** [run] into a static destination: it returns, with the trace and the
    counters of the closed form. *)
Lemma run_static (src : Source) (start end_ : Z) (st : State Srv) :
  get (self st) = get_api_method ->
  post (self st) = post_static_method ->
  exists st' : State Srv,
    run http m src start end_ st = (Ok tt, st') /\
    trace st' = trace st
                ++ static_harvest_events m (self st) (next_oid st) src
                ++ [ESave; EPrint (summary (self st') (end_ - start))] /\
    collection_count (self st')
    = collection_count (self st) + count_collections (records src) /\
    item_count (self st') = item_count (self st) + count_items (records src).
Proof.
  intros Hget Hpost.
  destruct (get_api_static src st Hpost) as (st1 & Hrun1 & Hh1).
  eexists. split; [| split].
  - unfold run, for_get.
    rewrite (bind_ok _ _ st st1 tt); [run_m; reflexivity |].
    run_m. rewrite Hget. exact Hrun1.
  - cbn [trace self]. destruct Hh1 as (_ & -> & _).
    by rewrite <- !app_assoc.
  - cbn [self]. split; apply Hh1.
Qed.

End StaticHarvest.

(** ** The API publisher and the harvest into an API destination *)

Lemma instance_dict_output_root (h : Harvester) : instance_dict h !! "output_root" = None.
Proof. unfold instance_dict. destruct (parent h); reflexivity. Qed.

Section ApiHarvest.

Context {Srv : Type}.
Variable http : Request -> Srv -> Response * Srv.
Variable m : HrefAccess.

Lemma unrewritten_refl (st : State Srv) : unrewritten st st.
Proof. unfold unrewritten. repeat split; reflexivity. Qed.

Lemma unrewritten_trans (st1 st2 st3 : State Srv) :
  unrewritten st1 st2 -> unrewritten st2 st3 -> unrewritten st1 st3.
Proof.
  intros (Hc1 & Hcc1 & Hic1 & Hr1 & Hw1) (Hc2 & Hcc2 & Hic2 & Hr2 & Hw2).
  unfold unrewritten. split; [by eapply same_config_trans |].
  repeat split; congruence.
Qed.

Lemma unrewritten_post (st st' : State Srv) :
  unrewritten st st' -> post (self st) = post_api_method ->
  post (self st') = post_api_method.
Proof. intros ((_ & _ & -> & _) & _) H. exact H. Qed.

Lemma preserves_ret {A} (a : A) : api_preserves (mret a : M Srv A).
Proof. intros st _. apply unrewritten_refl. Qed.

Lemma preserves_lift {A} (r : Result A) : api_preserves (lift r : M Srv A).
Proof. intros st _. apply unrewritten_refl. Qed.

Lemma preserves_get_self : api_preserves (get_self : M Srv Harvester).
Proof. intros st _. apply unrewritten_refl. Qed.

Lemma preserves_bind {A B} (c : M Srv A) (k : A -> M Srv B) :
  api_preserves c -> (forall a, api_preserves (k a)) -> api_preserves (c ≫= k).
Proof.
  intros Hc Hk st Hpost. specialize (Hc st Hpost).
  unfold mbind, M_bind. destruct (c st) as [[a | e] st1]; cbn [snd] in *; [| exact Hc].
  eapply unrewritten_trans; [exact Hc |].
  apply Hk. by eapply unrewritten_post.
Qed.

Lemma preserves_send (r : Request) : api_preserves (send http r).
Proof.
  intros st _. unfold send. destruct (http r (server st)) as [resp srv].
  unfold unrewritten, same_config, rewrites, written. cbn [snd self trace].
  rewrite !omap_app. cbn. rewrite !app_nil_r. repeat split; reflexivity.
Qed.

Lemma preserves_print (line : string) : api_preserves (print line : M Srv unit).
Proof.
  intros st _. unfold print, emit.
  unfold unrewritten, same_config, rewrites, written. cbn [snd self trace].
  rewrite !omap_app. cbn. rewrite !app_nil_r. repeat split; reflexivity.
Qed.

Lemma preserves_save : api_preserves (emit ESave : M Srv unit).
Proof.
  intros st _. unfold emit.
  unfold unrewritten, same_config, rewrites, written. cbn [snd self trace].
  rewrite !omap_app. cbn. rewrite !app_nil_r. repeat split; reflexivity.
Qed.

Lemma preserves_set_parent (f : Harvester -> ObjRef) :
  api_preserves (modify_self (fun h => set_parent h (f h)) : M Srv unit).
Proof. intros st _. unfold unrewritten, same_config. cbn. repeat split; reflexivity. Qed.

(** Applies the lemmas above down a computation, splitting its branches. *)
Ltac preserves :=
  repeat match goal with
    | |- api_preserves (mret _) => apply preserves_ret
    | |- api_preserves (lift _) => apply preserves_lift
    | |- api_preserves get_self => apply preserves_get_self
    | |- api_preserves (send _ _) => apply preserves_send
    | |- api_preserves (print _) => apply preserves_print
    | |- api_preserves (emit ESave) => apply preserves_save
    | |- api_preserves (modify_self _) => apply preserves_set_parent
    | |- api_preserves (_ ≫= _) => apply preserves_bind; [| intros ?]
    | |- api_preserves (if ?b then _ else _) => destruct b
    end.

Lemma preserves_post_api_colletion (a : Arg) : api_preserves (post_api_colletion http a).
Proof. unfold post_api_colletion. preserves. Qed.

Lemma preserves_post_api_item (a : Arg) : api_preserves (post_api_item http a).
Proof. unfold post_api_item. preserves. Qed.

Lemma preserves_post_api (a : Arg) : api_preserves (post_api http a).
Proof.
  unfold post_api.
  apply preserves_bind; [apply preserves_lift |]. intros type.
  destruct (String.eqb type "collection");
    [apply preserves_post_api_colletion | apply preserves_post_api_item].
Qed.

Lemma preserves_call_post (d : StacDict) : api_preserves (call_post http m d).
Proof.
  intros st Hpost. unfold call_post. run_m. rewrite Hpost.
  by apply preserves_post_api.
Qed.

Lemma preserves_for_items (body : StacDict -> M Srv unit) (items : list StacDict) :
  (forall d, api_preserves (body d)) -> api_preserves (for_items body items).
Proof.
  intros Hbody. induction items as [| d rest IH]; cbn [for_items]; preserves; auto.
Qed.

Lemma preserves_get_api (body : StacDict -> M Srv unit) (src : Source) :
  (forall d, api_preserves (body d)) -> api_preserves (get_api body src).
Proof.
  intros Hbody. induction src as [| [c items] rest IH]; cbn [get_api]; preserves; auto.
  by apply preserves_for_items.
Qed.

Lemma preserves_for_get (body : StacDict -> M Srv unit) (src : Source) :
  (forall d, api_preserves (body d)) -> api_preserves (for_get body src).
Proof.
  intros Hbody. unfold for_get.
  apply preserves_bind; [apply preserves_get_self |]. intros h.
  destruct (get h); [by apply preserves_get_api | apply preserves_lift].
Qed.

(** A harvest into an API destination never rewrites a link, never writes a
    file and never counts a record, however it ends. *)
Lemma preserves_run (src : Source) (start end_ : Z) :
  api_preserves (run http m src start end_).
Proof.
  unfold run. preserves. apply preserves_for_get. apply preserves_call_post.
Qed.

(** [post_api_colletion] raises in [urljoin], whose base is the destination
    catalog object: before the body is made and before anything is sent. *)
Lemma post_api_colletion_raises (a : Arg) (st : State Srv) :
  post_api_colletion http a st
  = (Raise (TypeError "Cannot mix str and non-str arguments"), st).
Proof. unfold post_api_colletion. run_m. reflexivity. Qed.

(** [post_api_item] raises when it reads [self.output_root]. *)
Lemma post_api_item_raises (a : Arg) (st : State Srv) :
  post_api_item http a st = (Raise (AttributeError "output_root"), st).
Proof.
  unfold post_api_item. run_m. unfold getattr.
  rewrite instance_dict_output_root. reflexivity.
Qed.

(** [post_api] raises on the record the loop hands it: a library object. *)
Lemma call_post_api_raises (d : StacDict) (st : State Srv) :
  post (self st) = post_api_method ->
  call_post http m d st = (Raise (TypeError "object is not subscriptable"), st).
Proof. intros Hpost. unfold call_post. run_m. rewrite Hpost. reflexivity. Qed.

(** A harvest from the API reader with [post_api] as publisher ends at its
    first record: the reader has set the parent, nothing else happened. *)
Lemma run_api_raises (c : StacDict) (items : list StacDict) (rest : Source)
    (start end_ : Z) (st : State Srv) :
  get (self st) = get_api_method ->
  post (self st) = post_api_method ->
  run http m ((c, items) :: rest) start end_ st
  = (Raise (TypeError "object is not subscriptable"),
     {| self := set_parent (self st) (cat_ref (output_catalog (self st)));
        server := server st; trace := trace st; next_oid := next_oid st |}).
Proof.
  intros Hget Hpost. unfold run, for_get. run_m. rewrite Hget. cbn [get_api]. run_m.
  rewrite call_post_api_raises; [reflexivity | exact Hpost].
Qed.

End ApiHarvest.

(** ** Parent and collection links *)

Lemma rewritten_parent_links (m : HrefAccess) (h : Harvester) (p : ObjRef) (d : StacDict) :
  (forall l : string * string,
      l ∈ links d -> l.1 ∈ ["parent"; "collection"] ->
      Str.startswith l.2 (input_root h) = true ->
      set_target (link_from_dict l) (Obj p) ∈ links (rewritten m h p d)) /\
  (forall l' : Link,
      l' ∈ links (rewritten m h p d) -> rel l' ∈ ["parent"; "collection"] ->
      target l' = Obj p).
Proof.
  assert (Hrel : forall r, r ∈ ["parent"; "collection"] ->
                           bool_decide (r ∈ ["collection"; "parent"]) = true).
  { intros r Hr. apply bool_decide_eq_true.
    rewrite !elem_of_cons in Hr |- *. tauto. }
  unfold rewritten. cbn [links set_links]. split.
  - intros [r s] Hin Hr Hpre. cbn [fst snd] in *.
    apply list_elem_of_fmap. exists (r, s). split.
    + unfold set_target, rewritten_link, rewritten_target. cbn.
      by rewrite (Hrel r Hr).
    + apply list_elem_of_In, filter_In. split; [by apply list_elem_of_In | exact Hpre].
  - intros l' Hin Hr.
    apply list_elem_of_fmap in Hin as ([r s] & -> & _).
    cbn in Hr |- *. unfold rewritten_target. by rewrite (Hrel r Hr).
Qed.

(** The files written for a run of items none of which is a Collection:
    one per item, each rewritten against the same parent. *)
Lemma written_static_items (m : HrefAccess) (h : Harvester) (p : ObjRef)
    (items : list StacDict) :
  Forall (fun i => STAC_OBJECT_TYPE i <> COLLECTION) items ->
  forall n : nat,
    Forall2 (fun item w => w.2 = rewritten m h p item) items
      (written (static_items_events m h p n items)).
Proof.
  induction 1 as [| d rest Hd _ IH]; intros n; cbn [static_items_events]; [constructor |].
  unfold written in *. rewrite omap_app.
  unfold static_events at 1, static_parent at 1.
  destruct (STAC_OBJECT_TYPE d); [| congruence |]; cbn; constructor; auto.
Qed.

(** Every record of a source is written, rewritten against the
    destination root if the reader yielded it as a collection. *)
Lemma written_static_harvest (m : HrefAccess) (h : Harvester) (src : Source)
    (ci : StacDict * list StacDict) :
  ci ∈ src ->
  forall n : nat, exists r : ObjRef,
    EWriteFile r (rewritten m h (cat_ref (output_catalog h)) ci.1)
    ∈ static_harvest_events m h n src.
Proof.
  induction 1 as [ci rest | ci ci' rest _ IH]; intros n; cbn [static_harvest_events].
  - exists (published_ref m h (cat_ref (output_catalog h)) n ci.1).
    apply elem_of_app. left. cbn [static_items_events]. apply elem_of_app. left.
    unfold static_events.
    destruct (STAC_OBJECT_TYPE ci.1); repeat constructor.
  - destruct (IH (n + S (length ci'.2))) as (r & Hr).
    exists r. apply elem_of_app. by right.
Qed.

Section StaticClaims.

Context {Srv : Type}.
Variable http : Request -> Srv -> Response * Srv.
Variable m : HrefAccess.

(** C4: under a static destination, once a Collection has been published
    (rewritten, attached to the destination root and written), [self.parent]
    is that object, and every Item published after it is written with each
    of its "parent" and "collection" links that start with the source root
    kept and aimed at that object; no "parent" or "collection" link of the
    written Item aims anywhere else. *)
Theorem items_target_published_collection (st : State Srv) (p : ObjRef)
    (c : StacDict) (items : list StacDict) :
  post (self st) = post_static_method ->
  parent (self st) = Some p ->
  STAC_OBJECT_TYPE c = COLLECTION ->
  Forall (fun i => STAC_OBJECT_TYPE i <> COLLECTION) items ->
  exists (st1 st2 : State Srv) (cref : ObjRef) (cobj : StacObject) (evs : list Event),
    call_post http m c st = (Ok tt, st1) /\
    trace st1 = trace st ++
                [EUpdateLinks (oid cref); EAddChild cref; EWriteFile cref cobj] /\
    oid cref = next_oid st /\
    parent (self st1) = Some cref /\
    for_items (call_post http m) items st1 = (Ok tt, st2) /\
    trace st2 = trace st1 ++ evs /\
    Forall2
      (fun item w =>
         (forall l : string * string,
             l ∈ links item -> l.1 ∈ ["parent"; "collection"] ->
             Str.startswith l.2 (input_root (self st)) = true ->
             set_target (link_from_dict l) (Obj cref) ∈ links w.2) /\
         (forall l' : Link,
             l' ∈ links w.2 -> rel l' ∈ ["parent"; "collection"] ->
             target l' = Obj cref))
      items (written evs).
Proof.
  intros Hpost Hp Hc Hitems.
  destruct (call_post_static http m c st p Hpost Hp) as (st1 & Hrun1 & Hh1 & Hp1).
  assert (Hc1 : same_config (self st) (self st1)) by apply Hh1.
  assert (Hpost1 : post (self st1) = post_static_method).
  { destruct Hc1 as (_ & _ & -> & _). exact Hpost. }
  unfold static_parent in Hp1. unfold static_events in Hh1. rewrite Hc in Hp1, Hh1.
  destruct (for_items_static http m items st1 _ Hpost1 Hp1) as (st2 & Hrun2 & Hh2 & _).
  exists st1, st2, (published_ref m (self st) p (next_oid st) c),
    (rewritten m (self st) p c).
  eexists.
  split; [exact Hrun1 |]. split; [apply Hh1 |]. split; [reflexivity |].
  split; [exact Hp1 |]. split; [exact Hrun2 |]. split; [apply Hh2 |].
  rewrite (static_items_events_same_config m _ _ items Hc1).
  eapply Forall2_impl; [by apply written_static_items |].
  intros item [r o] Hw. cbn [snd] in *. subst o. apply rewritten_parent_links.
Qed.


(** C10: [get_api] assigns the destination catalog root to [self.parent]
    right before the loop body sees each collection; with that parent
    [update_links] returns the collection with each of its "parent" and
    "collection" links that start with the source root kept and aimed at
    the destination catalog root, and with no "parent" or "collection" link
    aimed anywhere else; and this is how every collection the reader yields
    is written in a harvest into a static destination, whatever was
    published before it. *)
Theorem reader_resets_parent_to_root (src : Source) (start end_ : Z) (st : State Srv) :
  (forall (body : StacDict -> M Srv unit) (c : StacDict) (items : list StacDict)
          (rest : Source) (st0 : State Srv),
      get_api body ((c, items) :: rest) st0
      = (body c;; for_items body items;; get_api body rest)
          {| self := set_parent (self st0) (cat_ref (output_catalog (self st0)));
             server := server st0; trace := trace st0; next_oid := next_oid st0 |}) /\
  (forall (h : Harvester) (c : StacDict),
      exists o : StacObject,
        update_links m (set_parent h (cat_ref (output_catalog h))) (from_dict c) = Ok o /\
        (forall l : string * string,
            l ∈ links c -> l.1 ∈ ["parent"; "collection"] ->
            Str.startswith l.2 (input_root h) = true ->
            set_target (link_from_dict l) (Obj (cat_ref (output_catalog h))) ∈ links o) /\
        (forall l' : Link,
            l' ∈ links o -> rel l' ∈ ["parent"; "collection"] ->
            target l' = Obj (cat_ref (output_catalog h)))) /\
  (get (self st) = get_api_method ->
   post (self st) = post_static_method ->
   exists (st' : State Srv) (evs : list Event),
     run http m src start end_ st = (Ok tt, st') /\
     trace st' = trace st ++ evs /\
     forall ci : StacDict * list StacDict,
       ci ∈ src ->
       exists (r : ObjRef) (o : StacObject),
         EWriteFile r o ∈ evs /\
         fields o = fields ci.1 /\
         (forall l : string * string,
             l ∈ links ci.1 -> l.1 ∈ ["parent"; "collection"] ->
             Str.startswith l.2 (input_root (self st)) = true ->
             set_target (link_from_dict l) (Obj (cat_ref (output_catalog (self st))))
             ∈ links o) /\
         (forall l' : Link,
             l' ∈ links o -> rel l' ∈ ["parent"; "collection"] ->
             target l' = Obj (cat_ref (output_catalog (self st))))).
Proof.
  split; [reflexivity |]. split.
  - intros h c. eexists. split; [by apply update_links_from_dict |].
    apply (rewritten_parent_links m (set_parent h (cat_ref (output_catalog h)))).
  - intros Hget Hpost.
    destruct (run_static http m src start end_ st Hget Hpost) as (st' & Hrun & Htrace & _).
    exists st'. eexists. split; [exact Hrun |]. split; [exact Htrace |].
    intros ci Hci.
    destruct (written_static_harvest m (self st) src ci Hci (next_oid st)) as (r & Hr).
    exists r. eexists. split; [apply elem_of_app; left; exact Hr |].
    split; [reflexivity |]. apply rewritten_parent_links.
Qed.

End StaticClaims.

(** ** The API publisher *)

(** [self.parent] by name is the attribute the rewriter reads. *)
Lemma getattr_parent (h : Harvester) : getattr h "parent" = VObj <$> get_parent h.
Proof. unfold getattr, get_parent, instance_dict. destruct (parent h); reflexivity. Qed.

(** Every attribute [__init__] assigns can be read from the harvester it
    builds. *)
Lemma getattr_init_static (c : Conf) (cat : Catalog) (h : Harvester) (name : string) :
  init c cat = Ok h ->
  name ∈ ["conf"; "input_conf"; "output_conf"; "log_conf"; "input_root"; "get"; "post";
          "output_catalog"; "parent"; "collection_count"; "item_count"] ->
  exists v : Value, getattr h name = Ok v.
Proof.
  unfold init. destruct (String.eqb (TYPE (OUTPUT c)) "STATIC"); [| discriminate].
  intros [= <-] Hname. unfold getattr, instance_dict. cbn [parent].
  repeat (apply elem_of_cons in Hname as [-> | Hname]; [by eexists |]).
  by apply elem_of_nil in Hname.
Qed.

(** [__init__] builds a harvester for a STATIC output only. *)
Lemma init_not_static (c : Conf) (cat : Catalog) :
  TYPE (OUTPUT c) <> "STATIC" -> init c cat = Raise (AttributeError "Client").
Proof. intros Hty. unfold init. apply String.eqb_neq in Hty. by rewrite Hty. Qed.

Lemma init_static (c : Conf) (cat : Catalog) (h : Harvester) :
  init c cat = Ok h ->
  TYPE (OUTPUT c) = "STATIC" /\
  input_root h = ROOT (INPUT c) /\
  get h = (if String.eqb (TYPE (INPUT c)) "API" then get_api_method else get_static_method) /\
  post h = post_static_method /\
  output_catalog h = cat /\
  parent h = Some (cat_ref cat) /\
  collection_count h = 0 /\ item_count h = 0.
Proof.
  unfold init. destruct (String.eqb_spec (TYPE (OUTPUT c)) "STATIC") as [Hty | _];
    [| discriminate].
  intros [= <-]. cbn. rewrite Hty. by repeat split.
Qed.

Section ApiClaims.

Context {Srv : Type}.
Variable http : Request -> Srv -> Response * Srv.
Variable m : HrefAccess.

(** C9: no instance attribute and no method is called [output_root], so
    [post_api_item] raises [AttributeError] on its first line for every
    record and every harvester, with the state as it was: no request has
    been sent. *)
Theorem post_api_item_raises_attribute_error (a : Arg) (st : State Srv) :
  (forall h : Harvester, instance_dict h !! "output_root" = None) /\
  ("output_root" ∉ methods) /\
  post_api_item http a st = (Raise (AttributeError "output_root"), st).
Proof.
  split; [exact instance_dict_output_root |].
  split; [by apply (bool_decide_eq_false_1 ("output_root" ∈ methods)) |].
  apply post_api_item_raises.
Qed.

(** C5 fails on the code: [post_api_colletion] joins the path to
    [self.output_catalog], the catalog object, and [urljoin] raises
    [TypeError] before the create is sent.  So publishing a collection
    twice raises twice, whatever the payloads and whatever the destination
    would answer: no create and no update is ever sent, and the destination
    is as it was before the first publish, with nothing stored. *)
Theorem upsert_raises_before_any_request (first second : Arg) (st : State Srv) :
  let r1 := post_api_colletion http first st in
  let r2 := post_api_colletion http second r1.2 in
  r1.1 = Raise (TypeError "Cannot mix str and non-str arguments") /\
  r2.1 = Raise (TypeError "Cannot mix str and non-str arguments") /\
  r2.2 = st /\
  requests (trace r2.2) = requests (trace st) /\
  server r2.2 = server st.
Proof.
  cbv zeta. rewrite (post_api_colletion_raises http first st). cbn [fst snd].
  rewrite (post_api_colletion_raises http second st). by repeat split.
Qed.


(** C8 fails on the code for an API destination.  For every output type
    other than "STATIC", "API" included, [__init__] raises
    [AttributeError] where it asks [pystac] for [Client], so no harvester
    exists for [run] to be called on; and on a harvester whose publisher is
    [post_api], a harvest of at least one record ends with an exception
    and prints nothing: no summary line. *)
Theorem api_harvest_prints_no_summary (c : Conf) (cat : Catalog) (src : Source)
    (start end_ : Z) (st : State Srv) :
  (TYPE (OUTPUT c) <> "STATIC" -> init c cat = Raise (AttributeError "Client")) /\
  (get (self st) = get_api_method ->
   post (self st) = post_api_method ->
   src <> [] ->
   let r := run http m src start end_ st in
   (exists e : Exn, r.1 = Raise e) /\
   printed (trace r.2) = printed (trace st) /\
   saves (trace r.2) = saves (trace st)).
Proof.
  split; [apply init_not_static |].
  intros Hget Hpost Hsrc. destruct src as [| [c0 items] rest]; [done |].
  cbv zeta. rewrite run_api_raises by assumption. cbn [fst snd trace].
  split; [by eexists | by split].
Qed.

End ApiClaims.

(** ** The claims on concrete harvests *)


Lemma items_target_published_collection_witness :
  exists (st1 st2 : State (list Response)) (cref : ObjRef) (cobj : StacObject)
         (evs : list Event),
    call_post Scripted.http HrefOfTarget Example.A Example.static_start = (Ok tt, st1) /\
    trace st1 = trace Example.static_start
                ++ [EUpdateLinks (oid cref); EAddChild cref; EWriteFile cref cobj] /\
    oid cref = next_oid Example.static_start /\
    parent (self st1) = Some cref /\
    for_items (call_post Scripted.http HrefOfTarget) [Example.A1] st1 = (Ok tt, st2) /\
    trace st2 = trace st1 ++ evs /\
    Forall2
      (fun item w =>
         (forall l : string * string,
             l ∈ links item -> l.1 ∈ ["parent"; "collection"] ->
             Str.startswith l.2 (input_root (self Example.static_start)) = true ->
             set_target (link_from_dict l) (Obj cref) ∈ links w.2) /\
         (forall l' : Link,
             l' ∈ links w.2 -> rel l' ∈ ["parent"; "collection"] ->
             target l' = Obj cref))
      [Example.A1] (written evs).
Proof.
  apply (items_target_published_collection Scripted.http HrefOfTarget
           Example.static_start (cat_ref Example.catalog) Example.A [Example.A1]).
  - reflexivity.
  - reflexivity.
  - reflexivity.
  - constructor; [discriminate | constructor].
Defined.


Lemma reader_resets_parent_to_root_witness :
  exists (st' : State (list Response)) (evs : list Event),
    run Scripted.http HrefOfTarget [(Example.A, [Example.A1]); (Example.A, [])] 0 1000000
      Example.static_start = (Ok tt, st') /\
    trace st' = trace Example.static_start ++ evs /\
    forall ci : StacDict * list StacDict,
      ci ∈ [(Example.A, [Example.A1]); (Example.A, [])] ->
      exists (r : ObjRef) (o : StacObject),
        EWriteFile r o ∈ evs /\
        fields o = fields ci.1 /\
        (forall l : string * string,
            l ∈ links ci.1 -> l.1 ∈ ["parent"; "collection"] ->
            Str.startswith l.2 (input_root (self Example.static_start)) = true ->
            set_target (link_from_dict l)
              (Obj (cat_ref (output_catalog (self Example.static_start))))
            ∈ links o) /\
        (forall l' : Link,
            l' ∈ links o -> rel l' ∈ ["parent"; "collection"] ->
            target l' = Obj (cat_ref (output_catalog (self Example.static_start)))).
Proof.
  apply (proj2 (proj2 (reader_resets_parent_to_root Scripted.http HrefOfTarget
                         [(Example.A, [Example.A1]); (Example.A, [])] 0 1000000
                         Example.static_start)));
    reflexivity.
Defined.


Lemma api_harvest_prints_no_summary_witness :
  init Example.api_conf Example.catalog = Raise (AttributeError "Client") /\
  let r := run Scripted.http HrefOfTarget [(Example.B "v1", [Example.B1])] 0 1000000
             (Example.api_start []) in
  (exists e : Exn, r.1 = Raise e) /\
  printed (trace r.2) = printed (trace (Example.api_start [])) /\
  saves (trace r.2) = saves (trace (Example.api_start [])).
Proof.
  split.
  - apply (api_harvest_prints_no_summary Scripted.http HrefOfTarget Example.api_conf
             Example.catalog [] 0 0 (Example.api_start [])).
    discriminate.
  - apply (proj2 (api_harvest_prints_no_summary Scripted.http HrefOfTarget
                    Example.api_conf Example.catalog
                    [(Example.B "v1", [Example.B1])] 0 1000000 (Example.api_start [])));
      [reflexivity | reflexivity | discriminate].
Defined.

(** * Further properties of the code *)

(** ** [str.replace] where the pattern occurs once, or not at all *)

Lemma prefix_app (s t : string) : String.prefix s (s +:+ t) = true.
Proof.
  induction s as [| c s IH]; [by destruct t |].
  change (String c s +:+ t) with (String c (s +:+ t)). cbn [String.prefix].
  destruct (ascii_dec c c); [exact IH | congruence].
Qed.

Lemma replace_scan_skip (old new a b : string) :
  Str.replace_scan old new (String.length a) (a +:+ b) = Str.replace_scan old new 0 b.
Proof. induction a as [| c a IH]; [reflexivity | exact IH]. Qed.

Lemma replace_scan_prefix (old new rest : string) :
  old <> "" ->
  Str.replace_scan old new 0 (old +:+ rest) = new +:+ Str.replace_scan old new 0 rest.
Proof.
  intros Hne. destruct old as [| c o]; [congruence |].
  change (String c o +:+ rest) with (String c (o +:+ rest)).
  cbn [Str.replace_scan].
  change (String c (o +:+ rest)) with (String c o +:+ rest).
  rewrite prefix_app.
  replace (String.length (String c o) - 1) with (String.length o)
    by (cbn [String.length]; lia).
  by rewrite replace_scan_skip.
Qed.

Lemma replace_scan_free_before (old new pre tail : string) :
  old <> "" ->
  Str.free_before old pre tail = true ->
  Str.replace_scan old new 0 (pre +:+ tail) = pre +:+ Str.replace_scan old new 0 tail.
Proof.
  intros Hne. induction pre as [| c pre IH]; intros Hfree; [reflexivity |].
  cbn [Str.free_before] in Hfree. apply andb_true_iff in Hfree as [Hhere Hrest].
  apply negb_true_iff in Hhere.
  change (String c pre +:+ tail) with (String c (pre +:+ tail)) in *.
  cbn [Str.replace_scan]. rewrite Hhere. by rewrite IH.
Qed.

Lemma replace_scan_nil (old new : string) : Str.replace_scan old new 0 "" = "".
Proof. reflexivity. Qed.

Lemma append_nil_r (s : string) : s +:+ "" = s.
Proof.
  induction s as [| c s IH]; [reflexivity |].
  change (String c s +:+ "") with (String c (s +:+ "")). by rewrite IH.
Qed.

Lemma replace_nonempty (s old new : string) :
  old <> "" -> Str.replace s old new = Str.replace_scan old new 0 s.
Proof. intros Hne. by destruct old. Qed.

Lemma replace_scan_free (old new s : string) :
  old <> "" -> Str.free_of old s = true -> Str.replace_scan old new 0 s = s.
Proof.
  intros Hne Hfree.
  pose proof (replace_scan_free_before old new s "" Hne Hfree) as H.
  change (Str.replace_scan old new 0 "") with "" in H.
  by rewrite !append_nil_r in H.
Qed.

(** [(old + rest).replace(old, new)] where [old] does not occur in [rest]. *)
Lemma replace_prefix_once (old new rest : string) :
  old <> "" -> Str.free_of old rest = true ->
  Str.replace (old +:+ rest) old new = new +:+ rest.
Proof.
  intros Hne Hfree.
  by rewrite replace_nonempty, replace_scan_prefix, replace_scan_free.
Qed.

(** [s.replace(old, new)] where [old] does not occur in [s]. *)
Lemma replace_free (old new s : string) :
  old <> "" -> Str.free_of old s = true -> Str.replace s old new = s.
Proof. intros Hne Hfree. by rewrite replace_nonempty, replace_scan_free. Qed.

(** [(pre + old).replace(old, new)] where the only occurrence of [old] is
    the one at the end. *)
Lemma replace_suffix_once (old new pre : string) :
  old <> "" -> Str.free_before old pre old = true ->
  Str.replace (pre +:+ old) old new = pre +:+ new.
Proof.
  intros Hne Hfree.
  rewrite replace_nonempty, replace_scan_free_before by done.
  pose proof (replace_scan_prefix old new "" Hne) as H.
  change (Str.replace_scan old new 0 "") with "" in H.
  rewrite !append_nil_r in H. by rewrite H.
Qed.

(** ** More on the link rewriter *)

Section RewriterExtras.

Variable h : Harvester.

Lemma rewrite_link_other (m : HrefAccess) (p : ObjRef) (ty : STACObjectType)
    (d : string * string) :
  bool_decide (d.1 ∈ ["collection"; "parent"]) = false ->
  (rewrite_self m h ty (link_from_dict d) ≫= rewrite_rel m h)
  = Ok (rewritten_link m h p ty d).
Proof.
  intros Hrel. destruct d as [r s]. cbn [fst] in Hrel.
  unfold rewrite_self, rewritten_link, rewritten_target. cbn [rel link_from_dict fst snd].
  rewrite Hrel.
  destruct (String.eqb_spec r "self") as [-> | Hself].
  - destruct m; reflexivity.
  - cbn. unfold rewrite_rel. cbn [rel link_from_dict fst snd]. rewrite Hrel.
    destruct (String.eqb r "root"); [reflexivity |].
    rewrite href_link_from_dict. reflexivity.
Qed.

Lemma rewrite_link_parent_unset (m : HrefAccess) (ty : STACObjectType)
    (d : string * string) :
  parent h = None ->
  bool_decide (d.1 ∈ ["collection"; "parent"]) = true ->
  (rewrite_self m h ty (link_from_dict d) ≫= rewrite_rel m h)
  = Raise (AttributeError "parent").
Proof.
  intros Hp Hrel. destruct d as [r s]. cbn [fst] in Hrel.
  assert (Hself : String.eqb r "self" = false).
  { apply bool_decide_eq_true in Hrel. rewrite !elem_of_cons in Hrel.
    destruct Hrel as [-> | [-> | Hnil]]; [reflexivity | reflexivity |].
    by apply elem_of_nil in Hnil. }
  unfold rewrite_self. cbn [rel link_from_dict fst snd]. rewrite Hself. cbn.
  unfold rewrite_rel, get_parent. cbn [rel link_from_dict fst snd].
  by rewrite Hrel, Hp.
Qed.

Lemma update_links_loop_parent_unset (m : HrefAccess) (p : ObjRef) (ty : STACObjectType)
    (ds : list (string * string)) (acc : list Link) :
  parent h = None ->
  update_links_loop m h ty (link_from_dict <$> ds) acc
  = if existsb (reads_parent (input_root h)) ds
    then Raise (AttributeError "parent")
    else Ok (acc ++ (rewritten_link m h p ty <$> List.filter (kept (input_root h)) ds)).
Proof.
  intros Hp. revert acc.
  induction ds as [| d ds IH]; intros acc;
    cbn [fmap list_fmap update_links_loop List.filter existsb].
  - by rewrite app_nil_r.
  - rewrite href_link_from_dict. cbn [mbind Result_bind].
    unfold reads_parent at 1.
    change (Str.startswith d.2 (input_root h)) with (kept (input_root h) d).
    destruct (kept (input_root h) d); cbn [andb orb]; [| apply IH].
    destruct (bool_decide (d.1 ∈ ["collection"; "parent"])) eqn:Hrel; cbn [orb].
    + pose proof (rewrite_link_parent_unset m ty d Hp Hrel) as Hd.
      destruct (rewrite_self m h ty (link_from_dict d)) as [l1 |];
        cbn [mbind Result_bind] in *; [by rewrite Hd | by inversion Hd].
    + pose proof (rewrite_link_other m p ty d Hrel) as Hd.
      destruct (rewrite_self m h ty (link_from_dict d)) as [l1 |]; [| discriminate].
      cbn [mbind Result_bind] in *. rewrite Hd. cbn [mbind Result_bind].
      rewrite IH. destruct (existsb _ ds); [reflexivity |].
      cbn [fmap list_fmap]. by rewrite <- app_assoc.
Qed.

Lemma update_links_parent_unset (m : HrefAccess) (p : ObjRef) (d : StacDict) :
  parent h = None ->
  update_links m h (from_dict d)
  = if existsb (reads_parent (input_root h)) (links d)
    then Raise (AttributeError "parent")
    else Ok (rewritten m h p d).
Proof.
  intros Hp. unfold update_links, from_dict. cbn [links STAC_OBJECT_TYPE set_links].
  rewrite (update_links_loop_parent_unset m p _ _ [] Hp).
  by destruct (existsb _ _).
Qed.

(** X1: on the object built from a record, a link whose relation is none of
    "self", "collection", "parent" and "root", and whose href is the
    non-empty source root followed by a rest in which the source root does
    not occur again, is kept with the destination prefix followed by the
    same rest as its target. *)
Theorem other_link_moves_under_destination (m : HrefAccess) (p : ObjRef)
    (d : StacDict) (r rest : string) :
  parent h = Some p ->
  input_root h <> "" ->
  Str.free_of (input_root h) rest = true ->
  (r, input_root h +:+ rest) ∈ links d ->
  r ∉ ["self"; "collection"; "parent"; "root"] ->
  exists o' : StacObject,
    update_links m h (from_dict d) = Ok o' /\
    {| rel := r; href_attr := input_root h +:+ rest;
       target := Href (root_link h +:+ rest) |} ∈ links o'.
Proof.
  intros Hp Hne Hfree Hin Hr.
  exists (rewritten m h p d). split; [by apply update_links_from_dict |].
  unfold rewritten. cbn [links set_links].
  apply list_elem_of_fmap. exists (r, input_root h +:+ rest). split.
  - unfold rewritten_link, rewritten_target. cbn [fst snd].
    rewrite !not_elem_of_cons in Hr. destruct Hr as (Hself & Hcoll & Hpar & Hroot & _).
    rewrite bool_decide_eq_false_2
      by (rewrite !elem_of_cons, elem_of_nil; tauto).
    apply String.eqb_neq in Hself, Hroot. rewrite Hself, Hroot.
    by rewrite replace_prefix_once.
  - apply list_elem_of_In, filter_In. split; [by apply list_elem_of_In |].
    apply prefix_app.
Qed.

(** X2: on the object built from a record, a "self" link whose href is the
    non-empty source root followed by a rest free of the source root ends,
    when the library computes [link.href] from the target, with the
    destination prefix, the rest and the type suffix as its target,
    provided the source root does not occur in that string either; when
    the library stores the href, it ends with the destination prefix and
    the rest, without the suffix. *)
Theorem self_link_target (p : ObjRef) (d : StacDict) (rest : string) :
  parent h = Some p ->
  input_root h <> "" ->
  Str.free_of (input_root h) rest = true ->
  ("self", input_root h +:+ rest) ∈ links d ->
  let suffix := match STAC_OBJECT_TYPE d with
                | COLLECTION => "/collection.json"
                | _ => ".json"
                end in
  Str.free_of (input_root h) ((root_link h +:+ rest) +:+ suffix) = true ->
  (exists o' : StacObject,
      update_links HrefOfTarget h (from_dict d) = Ok o' /\
      {| rel := "self"; href_attr := input_root h +:+ rest;
         target := Href ((root_link h +:+ rest) +:+ suffix) |} ∈ links o') /\
  (exists o' : StacObject,
      update_links HrefAttribute h (from_dict d) = Ok o' /\
      {| rel := "self"; href_attr := input_root h +:+ rest;
         target := Href (root_link h +:+ rest) |} ∈ links o').
Proof.
  intros Hp Hne Hfree Hin suffix Hfree2.
  assert (Hkept : ("self", input_root h +:+ rest)
                  ∈ List.filter (kept (input_root h)) (links d)).
  { apply list_elem_of_In, filter_In. split; [by apply list_elem_of_In | apply prefix_app]. }
  split.
  - exists (rewritten HrefOfTarget h p d). split; [by apply update_links_from_dict |].
    unfold rewritten. cbn [links set_links].
    apply list_elem_of_fmap. exists ("self", input_root h +:+ rest).
    split; [| exact Hkept].
    unfold rewritten_link, rewritten_target. cbn [fst snd String.eqb Ascii.eqb Bool.eqb].
    rewrite bool_decide_eq_false_2
      by (rewrite !elem_of_cons, elem_of_nil; intros [? | [? | []]]; discriminate).
    rewrite replace_prefix_once by done. fold suffix.
    by rewrite replace_free.
  - exists (rewritten HrefAttribute h p d). split; [by apply update_links_from_dict |].
    unfold rewritten. cbn [links set_links].
    apply list_elem_of_fmap. exists ("self", input_root h +:+ rest).
    split; [| exact Hkept].
    unfold rewritten_link, rewritten_target. cbn [fst snd String.eqb Ascii.eqb Bool.eqb].
    rewrite bool_decide_eq_false_2
      by (rewrite !elem_of_cons, elem_of_nil; intros [? | [? | []]]; discriminate).
    by rewrite replace_prefix_once.
Qed.

(** X3: the destination prefix is the href of the destination root link
    with its "/catalog.json" removed: when the href ends with
    "/catalog.json" and has no other occurrence of it, the prefix is what
    stands before it; when the href has no "/catalog.json" at all, the
    prefix is the href itself. *)
Theorem root_link_strips_catalog_json (base : string) :
  (root_link_href (output_catalog h) = base +:+ "/catalog.json" ->
   Str.free_before "/catalog.json" base "/catalog.json" = true ->
   root_link h = base) /\
  (Str.free_of "/catalog.json" (root_link_href (output_catalog h)) = true ->
   root_link h = root_link_href (output_catalog h)).
Proof.
  unfold root_link. split.
  - intros -> Hfree. rewrite replace_suffix_once by done. apply append_nil_r.
  - intros Hfree. by apply replace_free.
Qed.

(** X4: on a harvester whose [parent] is unset, [update_links] of the object
    built from a record raises [AttributeError] exactly when a link that
    starts with the source root has relation "collection" or "parent";
    otherwise it returns the same object as with any parent. *)
Theorem update_links_without_parent (m : HrefAccess) (p : ObjRef) (d : StacDict) :
  parent h = None ->
  update_links m h (from_dict d)
  = if existsb (reads_parent (input_root h)) (links d)
    then Raise (AttributeError "parent")
    else Ok (rewritten m h p d).
Proof. apply update_links_parent_unset. Qed.

End RewriterExtras.

(** ** More on the static publisher and the harvest loop *)

Lemma printed_static_items_events (m : HrefAccess) (h : Harvester) (items : list StacDict) :
  forall (p : ObjRef) (n : nat), printed (static_items_events m h p n items) = [].
Proof.
  induction items as [| d rest IH]; intros p n; cbn [static_items_events]; [reflexivity |].
  unfold printed in *. rewrite omap_app, IH, app_nil_r.
  unfold static_events. by destruct (STAC_OBJECT_TYPE d).
Qed.

Lemma printed_static_harvest_events (m : HrefAccess) (h : Harvester) (src : Source) :
  forall n : nat, printed (static_harvest_events m h n src) = [].
Proof.
  induction src as [| ci rest IH]; intros n; cbn [static_harvest_events]; [reflexivity |].
  pose proof (printed_static_items_events m h (ci.1 :: ci.2)
                (cat_ref (output_catalog h)) n) as Hhead.
  unfold printed in *. by rewrite omap_app, Hhead, IH.
Qed.



(** A record that keeps a self link is written as an object with a self
    href. *)
Lemma get_self_href_rewritten (m : HrefAccess) (h : Harvester) (p : ObjRef) (d : StacDict) :
  keeps_self (input_root h) d = true ->
  is_Some (get_self_href m (rewritten m h p d)).
Proof.
  unfold keeps_self, get_self_href, rewritten. cbn [links set_links].
  generalize (STAC_OBJECT_TYPE d). intros ty.
  induction (links d) as [| [r s] rest IH]; cbn [existsb List.filter]; [discriminate |].
  destruct (kept (input_root h) (r, s)); cbn [andb fst]; [| exact IH].
  cbn [fmap list_fmap List.find rewritten_link rel fst snd].
  destruct (String.eqb_spec r "self") as [-> | _]; cbn [orb]; [intros _ | exact IH].
  unfold href, rewritten_target. cbn. by destruct m.
Qed.

Lemma written_static_items_self (m : HrefAccess) (h : Harvester) (items : list StacDict) :
  Forall (fun d => keeps_self (input_root h) d = true) items ->
  forall (p : ObjRef) (n : nat),
    Forall (fun w => is_Some (self_href w.1)) (written (static_items_events m h p n items)).
Proof.
  induction 1 as [| d rest Hd _ IH]; intros p n; cbn [static_items_events]; [constructor |].
  unfold written in *. rewrite omap_app. apply Forall_app. split; [| apply IH].
  unfold static_events.
  destruct (STAC_OBJECT_TYPE d); cbn; repeat constructor;
    by apply get_self_href_rewritten.
Qed.

Lemma written_static_harvest_self (m : HrefAccess) (h : Harvester) (src : Source) :
  Forall (fun d => keeps_self (input_root h) d = true) (records src) ->
  forall n : nat,
    Forall (fun w => is_Some (self_href w.1)) (written (static_harvest_events m h n src)).
Proof.
  unfold records.
  induction src as [| ci rest IH]; intros Hsrc n; cbn [static_harvest_events];
    [constructor |].
  cbn [flat_map] in Hsrc. change (?x :: ?l ++ ?r) with ((x :: l) ++ r) in Hsrc.
  apply Forall_app in Hsrc as [Hci Hrest].
  unfold written in *. rewrite omap_app. apply Forall_app. split.
  - by apply written_static_items_self.
  - by apply IH.
Qed.

Section StaticExtras.

Context {Srv : Type}.
Variable http : Request -> Srv -> Response * Srv.
Variable m : HrefAccess.

(** X5: take the harvester [__init__] builds, which it does for a STATIC
    output only, with an API input, and a source each of whose records
    keeps a "self" link inside the source root.  Then the harvest returns,
    every file it writes is written for an object that has a self href, and
    the only line it prints is the summary, with the number of records
    whose type is Collection, the number of all other records, and the
    elapsed time. *)
Theorem static_harvest_summary_counts_records (c : Conf) (cat : Catalog) (h : Harvester)
    (src : Source) (start end_ : Z) (srv : Srv) (n : nat) :
  init c cat = Ok h ->
  TYPE (INPUT c) = "API" ->
  Forall (fun d => keeps_self (input_root h) d = true) (records src) ->
  exists st' : State Srv,
    run http m src start end_
      {| self := h; server := srv; trace := []; next_oid := n |}
    = (Ok tt, st') /\
    Forall (fun w => is_Some (self_href w.1)) (written (trace st')) /\
    printed (trace st')
    = ["Harvested " +:+ Str.of_nat (count_collections (records src))
       +:+ " Collections and " +:+ Str.of_nat (count_items (records src))
       +:+ " Items in " +:+ Timedelta.str (end_ - start)].
Proof.
  intros Hinit Hin Hself.
  destruct (init_static c cat h Hinit) as (_ & _ & Hg & Hpost0 & _ & _ & Hcc0 & Hic0).
  set (st := {| self := h; server := srv; trace := []; next_oid := n |}).
  assert (Hget : get (self st) = get_api_method).
  { cbn. rewrite Hg. by rewrite Hin. }
  assert (Hpost : post (self st) = post_static_method) by exact Hpost0.
  destruct (run_static http m src start end_ st Hget Hpost)
    as (st' & Hrun & Htrace & Hcc & Hic).
  exists st'. split; [exact Hrun |].
  rewrite Htrace. cbn [trace st app]. split.
  - unfold written. rewrite omap_app. apply Forall_app. split.
    + by apply written_static_harvest_self.
    + cbn. constructor.
  - unfold printed. rewrite !omap_app.
    fold (printed (static_harvest_events m (self st) (next_oid st) src)).
    rewrite printed_static_harvest_events. cbn.
    unfold summary. rewrite Hcc, Hic. cbn [self st]. by rewrite Hcc0, Hic0.
Qed.

(** X6: a harvest whose input type is anything but "API" reads from
    [get_static], which returns nothing to iterate: [run] raises
    [TypeError] at once, with nothing published, saved or printed. *)
Theorem static_source_raises_type_error (c : Conf) (cat : Catalog)
    (src : Source) (start end_ : Z) (st : State Srv) :
  TYPE (INPUT c) <> "API" ->
  init c cat = Ok (self st) ->
  run http m src start end_ st
  = (Raise (TypeError "'NoneType' object is not iterable"), st).
Proof.
  intros Hin Hself. destruct (init_static c cat (self st) Hself) as (_ & _ & Hg & _).
  unfold run, for_get. run_m. rewrite Hg.
  apply String.eqb_neq in Hin. by rewrite Hin.
Qed.


(** X8: when [parent] is unset and the record has a link inside the source
    root with relation "collection" or "parent", [post_static] raises
    [AttributeError] out of [update_links]: nothing is attached, written
    or counted, and [parent] stays unset. *)
Theorem post_static_without_parent_publishes_nothing (d : StacDict) (st : State Srv) :
  parent (self st) = None ->
  existsb (reads_parent (input_root (self st))) (links d) = true ->
  post_static m d st
  = (Raise (AttributeError "parent"),
     {| self := self st; server := server st;
        trace := trace st ++ [EUpdateLinks (next_oid st)];
        next_oid := next_oid st + 1 |}).
Proof.
  intros Hp Hex.
  pose proof (update_links_parent_unset (self st) m (cat_ref (output_catalog (self st)))
                d Hp) as Hup.
  rewrite Hex in Hup.
  unfold post_static, call_update_links.
  destruct (STAC_OBJECT_TYPE d); run_m; rewrite Hup; reflexivity.
Qed.

End StaticExtras.

(** ** More on the API publisher *)

Section ApiExtras.

Context {Srv : Type}.
Variable http : Request -> Srv -> Response * Srv.
Variable m : HrefAccess.

(** X9: [post_api] sends nothing for a mapping whose "type" entry is not
    exactly "collection": without the entry it raises [KeyError], with any
    other value it goes to [post_api_item] and raises [AttributeError];
    the state is untouched either way. *)
Theorem post_api_publishes_only_type_collection (d : StacDict) (st : State Srv) :
  fields d !! "type" <> Some "collection" ->
  post_api http (Mapping d) st
  = (Raise match fields d !! "type" with
           | None => KeyError "type"
           | Some _ => AttributeError "output_root"
           end, st).
Proof.
  intros Hty. unfold post_api, subscript, getitem.
  destruct (fields d !! "type") as [ty |]; run_m; [| reflexivity].
  destruct (String.eqb_spec ty "collection") as [-> | _]; [congruence |].
  apply post_api_item_raises.
Qed.

(** X14: a harvest into an API destination, whether it returns or raises,
    ends with the counters it started with, and with no file written. *)
Theorem api_harvest_counts_and_writes_nothing (src : Source) (start end_ : Z)
    (st : State Srv) :
  post (self st) = post_api_method ->
  let st' := (run http m src start end_ st).2 in
  collection_count (self st') = collection_count (self st) /\
  item_count (self st') = item_count (self st) /\
  written (trace st') = written (trace st).
Proof.
  intros Hpost st'.
  destruct (preserves_run http m src start end_ st Hpost) as (_ & Hcc & Hic & _ & Hw).
  by repeat split.
Qed.

End ApiExtras.

(** ** Saving and the summary *)

Section Saving.

Context {Srv : Type}.
Variable http : Request -> Srv -> Response * Srv.
Variable m : HrefAccess.



















End Saving.

(** ** The further properties on concrete harvests *)

Lemma other_link_moves_under_destination_witness :
  exists o' : StacObject,
    update_links HrefOfTarget Example.to_static (from_dict Example.C) = Ok o' /\
    {| rel := "license"; href_attr := input_root Example.to_static +:+ "/C/licence.html";
       target := Href (root_link Example.to_static +:+ "/C/licence.html") |} ∈ links o'.
Proof.
  apply (other_link_moves_under_destination Example.to_static HrefOfTarget
           (cat_ref Example.catalog) Example.C "license" "/C/licence.html").
  - reflexivity.
  - discriminate.
  - reflexivity.
  - apply list_elem_of_further, list_elem_of_here.
  - apply (bool_decide_unpack _). vm_compute. exact I.
Defined.

Lemma self_link_target_witness :
  (exists o' : StacObject,
      update_links HrefOfTarget Example.to_static (from_dict Example.C) = Ok o' /\
      {| rel := "self"; href_attr := input_root Example.to_static +:+ "/C";
         target := Href ((root_link Example.to_static +:+ "/C") +:+ "/collection.json") |}
      ∈ links o') /\
  (exists o' : StacObject,
      update_links HrefAttribute Example.to_static (from_dict Example.C) = Ok o' /\
      {| rel := "self"; href_attr := input_root Example.to_static +:+ "/C";
         target := Href (root_link Example.to_static +:+ "/C") |} ∈ links o').
Proof.
  apply (self_link_target Example.to_static (cat_ref Example.catalog) Example.C "/C").
  - reflexivity.
  - discriminate.
  - reflexivity.
  - apply list_elem_of_here.
  - reflexivity.
Defined.

Lemma root_link_strips_catalog_json_witness :
  root_link Example.to_static = "https://dst" /\
  root_link Example.to_bare = "https://dst".
Proof.
  split.
  - apply (root_link_strips_catalog_json Example.to_static "https://dst"); reflexivity.
  - apply (proj2 (root_link_strips_catalog_json Example.to_bare "")).
    reflexivity.
Defined.

Lemma update_links_without_parent_witness :
  update_links HrefOfTarget Example.to_api (from_dict Example.A1)
  = (if existsb (reads_parent (input_root Example.to_api)) (links Example.A1)
     then Raise (AttributeError "parent")
     else Ok (rewritten HrefOfTarget Example.to_api (cat_ref Example.catalog) Example.A1)) /\
  existsb (reads_parent (input_root Example.to_api)) (links Example.A1) = true.
Proof.
  split; [| reflexivity].
  apply (update_links_without_parent Example.to_api HrefOfTarget
           (cat_ref Example.catalog) Example.A1).
  reflexivity.
Defined.

Lemma static_harvest_summary_counts_records_witness :
  exists st' : State (list Response),
    run Scripted.http HrefOfTarget [(Example.A, [Example.A1]); (Example.C, [])] 0 1000000
      {| self := Example.to_static; server := []; trace := []; next_oid := 1 |}
    = (Ok tt, st') /\
    Forall (fun w => is_Some (self_href w.1)) (written (trace st')) /\
    printed (trace st')
    = ["Harvested "
       +:+ Str.of_nat (count_collections
                         (records [(Example.A, [Example.A1]); (Example.C, [])]))
       +:+ " Collections and "
       +:+ Str.of_nat (count_items (records [(Example.A, [Example.A1]); (Example.C, [])]))
       +:+ " Items in " +:+ Timedelta.str (1000000 - 0)].
Proof.
  apply (static_harvest_summary_counts_records Scripted.http HrefOfTarget
           Example.static_conf Example.catalog Example.to_static
           [(Example.A, [Example.A1]); (Example.C, [])] 0 1000000 [] 1).
  - reflexivity.
  - reflexivity.
  - repeat constructor.
Defined.

Lemma static_source_raises_type_error_witness :
  run Scripted.http HrefOfTarget [(Example.A, [Example.A1])] 0 1000000
    (Example.start Example.from_static [])
  = (Raise (TypeError "'NoneType' object is not iterable"),
     Example.start Example.from_static []).
Proof.
  apply (static_source_raises_type_error Scripted.http HrefOfTarget
           Example.from_static_conf Example.catalog).
  - discriminate.
  - reflexivity.
Defined.


Lemma post_static_without_parent_publishes_nothing_witness :
  post_static HrefOfTarget Example.A1 (Example.api_start [])
  = (Raise (AttributeError "parent"),
     {| self := Example.to_api; server := [];
        trace := [] ++ [EUpdateLinks 1]; next_oid := 1 + 1 |}).
Proof.
  apply (post_static_without_parent_publishes_nothing HrefOfTarget Example.A1
           (Example.api_start []));
    reflexivity.
Defined.

Lemma post_api_publishes_only_type_collection_witness :
  post_api Scripted.http (Mapping Example.untyped) (Example.api_start [])
  = (Raise (KeyError "type"), Example.api_start []) /\
  post_api Scripted.http (Mapping Example.A) (Example.api_start [])
  = (Raise (AttributeError "output_root"), Example.api_start []).
Proof.
  split.
  - apply (post_api_publishes_only_type_collection Scripted.http Example.untyped
             (Example.api_start [])).
    discriminate.
  - apply (post_api_publishes_only_type_collection Scripted.http Example.A
             (Example.api_start [])).
    discriminate.
Defined.

Lemma api_harvest_counts_and_writes_nothing_witness :
  let st' := (run Scripted.http HrefOfTarget [(Example.B "v1", [Example.B1])] 0 1000000
                (Example.api_start [])).2 in
  collection_count (self st') = collection_count (self (Example.api_start [])) /\
  item_count (self st') = item_count (self (Example.api_start [])) /\
  written (trace st') = written (trace (Example.api_start [])).
Proof.
  apply (api_harvest_counts_and_writes_nothing Scripted.http HrefOfTarget
           [(Example.B "v1", [Example.B1])] 0 1000000 (Example.api_start [])).
  reflexivity.
Defined.
